(** * ContractIQ front-end controller: a shallow embedding and its properties

    The development follows the JavaScript sources of the front end:
    - [config.js]    : [APP_STATE], [RISK_CONFIG], [Utils]
    - [api.js]       : [API] (the wrappers the controller calls) and [Toast]
    - [dashboard.js] : [Dashboard]
    - [app.js]       : [App]
    - the chat module: [Chat]

    Conventions.
    - A JavaScript string is a [string]: a sequence of code units, here the
      8-bit (Latin-1) ones.
    - A JavaScript number is a [number]: NaN, the two infinities, or a
      rational.  Every double is one of these, and the only operations the
      modelled code applies to scores are comparisons against integer
      constants, which are exact on doubles.
    - Asynchronous functions are programs of the type [prog]: state
      updates, exceptions and suspension points ([Await]).  [run] executes a
      program up to its first suspension, as a JavaScript call does;
      [exec] answers every suspension from an environment and runs the
      program to its end; [EventLoop] interleaves the calls the listeners
      make with the answers to the pending requests.
    - [console] output, focus changes and the timers that only animate the
      page are left out. *)

From Stdlib Require Import ZArith QArith Qround List String Ascii Bool Lia.
From Stdlib Require Import Permutation Sorted DecimalString DecimalPos DecimalZ.
Import ListNotations.

Local Open Scope string_scope.
Local Open Scope Z_scope.

(* ===================================================================== *)
(** ** JavaScript values used by the sources *)
(* ===================================================================== *)

Module JS.

(** Numbers. *)
Inductive number : Type :=
| NaN
| NegInfinity
| Infinity
| Finite (q : Q).

Definition of_Z (z : Z) : number := Finite (inject_Z z).

(** [a >= b] of JavaScript: false as soon as one side is NaN. *)
Definition ge (a b : number) : bool :=
  match a, b with
  | NaN, _ | _, NaN => false
  | Infinity, _ => true
  | _, NegInfinity => true
  | NegInfinity, _ => false
  | _, Infinity => false
  | Finite x, Finite y => Qle_bool y x
  end.

(** Truthiness of a value that is [null]/[undefined] ([None]) or a
    string: the empty string is falsy. *)
Definition truthy (v : option string) : bool :=
  match v with
  | Some (String _ _) => true
  | _ => false
  end.

(** [v || d] for such a value. *)
Definition or_else (v : option string) (d : string) : string :=
  match v with
  | Some (String c s) => String c s
  | _ => d
  end.

(** [String.prototype.toLowerCase] on Latin-1 code units: A-Z and the
    accented capitals U+00C0..U+00DE (U+00D7, the multiplication sign,
    apart) move up by 32. *)
Definition lower_code (n : N) : N :=
  if ((65 <=? n) && (n <=? 90))%N
     || ((192 <=? n) && (n <=? 222) && negb (n =? 215))%N
  then (n + 32)%N else n.

Definition lower_ascii (c : ascii) : ascii :=
  ascii_of_N (lower_code (N_of_ascii c)).

Fixpoint toLowerCase (s : string) : string :=
  match s with
  | EmptyString => EmptyString
  | String c s' => String (lower_ascii c) (toLowerCase s')
  end.

(** [s.endsWith(suffix)]: the last [length suffix] code units of [s]
    are those of [suffix]. *)
Definition endsWith (s suffix : string) : bool :=
  let n := String.length s in
  let m := String.length suffix in
  if (m <=? n)%nat then String.eqb (substring (n - m) m s) suffix else false.

(** White space of [String.prototype.trim] in the Latin-1 range: TAB, LF,
    VT, FF, CR, SPACE and NBSP. *)
Definition is_white (c : ascii) : bool :=
  let n := N_of_ascii c in
  (((9 <=? n) && (n <=? 13)) || (n =? 32) || (n =? 160))%N.

Fixpoint trimStart (s : string) : string :=
  match s with
  | EmptyString => EmptyString
  | String c s' => if is_white c then trimStart s' else s
  end.

Fixpoint rev_append (s acc : string) : string :=
  match s with
  | EmptyString => acc
  | String c s' => rev_append s' (String c acc)
  end.

Definition reverse (s : string) : string := rev_append s EmptyString.

Definition trimEnd (s : string) : string := reverse (trimStart (reverse s)).

Definition trim (s : string) : string := trimEnd (trimStart s).

(** Decimal rendering of an integer, as [String(n)] gives it. *)
Definition string_of_Z (z : Z) : string := NilZero.string_of_int (Z.to_int z).

(** [s.replace(/\n/g, r)]. *)
Fixpoint replace_newlines (r s : string) : string :=
  match s with
  | EmptyString => EmptyString
  | String c s' =>
      if (N_of_ascii c =? 10)%N then r ++ replace_newlines r s'
      else String c (replace_newlines r s')
  end.

(** [parts.join(sep)]. *)
Fixpoint join (sep : string) (parts : list string) : string :=
  match parts with
  | [] => ""
  | [p] => p
  | p :: rest => p ++ sep ++ join sep rest
  end.

End JS.

(* ===================================================================== *)
(** ** config.js *)
(* ===================================================================== *)

(** One band of [RISK_CONFIG]. *)
Module RiskBand.
Record t : Type := Build { min : Z; max : Z; color : string; label : string }.
End RiskBand.

Module RISK_CONFIG.
Definition HIGH : RiskBand.t := RiskBand.Build 60 100 "#ef4444" "HIGH RISK".
Definition MEDIUM : RiskBand.t := RiskBand.Build 30 59 "#f59e0b" "MEDIUM RISK".
Definition LOW : RiskBand.t := RiskBand.Build 0 29 "#10b981" "LOW RISK".

(** The object's own properties, in source order. *)
Definition own : list (string * RiskBand.t) :=
  [("HIGH", HIGH); ("MEDIUM", MEDIUM); ("LOW", LOW)].

(** [RISK_CONFIG[level]?.color].  A key that is no own property is either
    absent ([undefined]) or a member inherited from [Object.prototype]
    ([constructor], [toString], ...), none of which has a [color]
    property: in both cases the optional chain yields [undefined]. *)
Fixpoint assoc (key : string) (props : list (string * RiskBand.t))
  : option RiskBand.t :=
  match props with
  | [] => None
  | (k, v) :: rest => if String.eqb k key then Some v else assoc key rest
  end.

Definition color_of (level : string) : option string :=
  option_map RiskBand.color (assoc level own).
End RISK_CONFIG.

Module Utils.

(** [Utils.getRiskLevel(score)]. *)
Definition getRiskLevel (score : JS.number) : string :=
  if JS.ge score (JS.of_Z (RiskBand.min RISK_CONFIG.HIGH)) then "HIGH"
  else if JS.ge score (JS.of_Z (RiskBand.min RISK_CONFIG.MEDIUM)) then "MEDIUM"
  else "LOW".

(** [Utils.getRiskColor(level)]. *)
Definition getRiskColor (level : string) : string :=
  JS.or_else (RISK_CONFIG.color_of level) "#6b7280".

(** [Utils.truncateText(text, maxLength)] on a present text. *)
Definition truncateText (text : string) (maxLength : nat) : string :=
  if (String.length text <=? maxLength)%nat then text
  else substring 0 maxLength text ++ "...".

(** [Utils.generateSessionId()].  [now] is the value of [Date.now()] and
    [rnd36] the text of [Math.random().toString(36)] at the call. *)
Definition generateSessionId (now : Z) (rnd36 : string) : string :=
  "session_" ++ JS.string_of_Z now ++ "_" ++ substring 2 9 rnd36.

End Utils.

(* ===================================================================== *)
(** ** Data exchanged with the back end *)
(* ===================================================================== *)

(** A browser [File]: the two properties the controller reads. *)
Module File.
Record t : Type := Build { name : string; size : Z }.
End File.

(** Response of the upload end point. *)
Module Upload.
Record t : Type := Build { doc_id : string; filename : string; num_pages : Z }.
End Upload.

(** One clause finding of the extraction result. *)
Module Clause.
Record t : Type := Build {
  clause_type : string;
  found : bool;
  extracted_text : option string;
  page_number : option Z;
  char_start : option Z;
  char_end : option Z;
  confidence : Q;
  risk_score : Q;
  risk_level : string;
  reliability_flag : option string
}.
End Clause.

(** Response of the extraction end point. *)
Module Extraction.
Record t : Type := Build {
  filename : string;
  overall_risk_score : Q;
  risk_level : string;
  high_risk_count : Z;
  medium_risk_count : Z;
  low_risk_count : Z;
  missing_critical_count : Z;
  clauses : list Clause.t
}.
End Extraction.

(** A source reference of a chat answer. *)
Module Source.
Record t : Type := Build { clause_type : option string; risk_level : string }.
End Source.

(** Response of the chat end point. *)
Module ChatReply.
Record t : Type := Build { answer : string; sources : list Source.t }.
End ChatReply.

(** How an awaited [fetch] exchange ends, as the wrappers of [api.js] see
    it: [NetworkFailure] is a rejection of one of the awaited promises
    ([fetch] itself or [response.json()]), [HttpFailure] a response whose
    [ok] is false, with the [detail] field of its body when there is one,
    and [HttpSuccess] a response whose [ok] is true, with its parsed body. *)
Inductive fetch_result (A : Type) : Type :=
| NetworkFailure (message : string)
| HttpFailure (detail : option string)
| HttpSuccess (body : A).

Arguments NetworkFailure {A} message.
Arguments HttpFailure {A} detail.
Arguments HttpSuccess {A} body.

(** The suspension points of the asynchronous functions, indexed by the
    type of what the awaited promise resolves to. *)
Inductive request : Type -> Type :=
| FetchUpload (file : File.t) : request (fetch_result Upload.t)
| FetchExtract (docId : string) : request (fetch_result Extraction.t)
| FetchChat (sessionId docId : option string) (query : string)
  : request (fetch_result ChatReply.t)
| FetchClearSession (sessionId : string) : request (fetch_result unit)
| FetchExport (docId : string) : request (fetch_result unit)
| FetchHealth : request (fetch_result unit)
| Sleep (ms : Z) : request unit.

Definition is_chat_fetch {R : Type} (req : request R) : bool :=
  match req with
  | FetchChat _ _ _ => true
  | _ => false
  end.

(* ===================================================================== *)
(** ** The page and the application state *)
(* ===================================================================== *)

(** [APP_STATE] of config.js. *)
Module APP_STATE.
Record t : Type := Build {
  currentDocId : option string;
  currentSessionId : option string;
  extractionData : option Extraction.t;
  currentFilter : string
}.

Definition initial : t := Build None None None "all".
End APP_STATE.

(** Class of a step element: neither, ['active'] or ['completed']. *)
Inductive StepClass : Type := Plain | Active | Completed.

(** A rendered clause ([div.clause-item]): its [data-risk-level], whether
    its class list holds ['hidden'], the badge class and text computed for
    it, and the clause its markup is written from. *)
Module ClauseItem.
Record t : Type := Build {
  riskLevel : string;
  hidden : bool;
  riskBadgeClass : string;
  clauseText : string;
  clause : Clause.t
}.

Definition set_hidden (h : bool) (i : t) : t :=
  Build (riskLevel i) h (riskBadgeClass i) (clauseText i) (clause i).
End ClauseItem.

(** A child of [#chatMessages]: the welcome block, a message bubble (its
    sender, the formatted text and the sources line, empty when there is
    none) or the typing indicator. *)
Inductive ChatNode : Type :=
| Welcome
| Message (sender html sourcesHTML : string)
| TypingIndicator.

(** The elements of the page the controller looks up.  An element the code
    guards with [if (element)] is an [option]: [None] when the page has no
    such element.  The four count elements of the dashboard and the toast
    container are dereferenced without a guard and are taken to exist. *)
Module Page.
Record t : Type := Build {
  sections : list string;
  activeSection : option string;
  fileInput : option string
}.
End Page.

Module Processing.
Record t : Type := Build {
  progressFill : option Q;
  stepElements : list (option StepClass);
  processingStatus : option (string * string);
  processingFileName : option string;
  processingPages : option string
}.
End Processing.

Module DashboardView.
Record t : Type := Build {
  dashboardFileName : option string;
  overallScore : option Z;
  overallRiskLevel : option (string * string);
  highRiskCount : Z;
  mediumRiskCount : Z;
  lowRiskCount : Z;
  missingCriticalCount : Z;
  clausesList : option (list ClauseItem.t)
}.
End DashboardView.

Module ChatView.
Record t : Type := Build {
  chatInput : option string;
  sendBtn : option bool;
  chatMessages : option (list ChatNode)
}.
End ChatView.

Module Document.
Record t : Type := Build {
  page : Page.t;
  processing : Processing.t;
  dashboard : DashboardView.t;
  chat : ChatView.t
}.
End Document.

(** Observable effects, in the order they happen. *)
Inductive Event : Type :=
| Toasted (type message : string)
| ProcessingStep (stepNumber : Z) (percentage : Q)
| Requested (R : Type) (req : request R)
| TimeoutSet (ms : Z) (sectionId : string).

Arguments Requested {R} req.

(** Everything the controller reads and writes: [APP_STATE], the page,
    [Chat.isProcessing], whether [FactsManager.intervalId] is set, and the
    history of effects. *)
Module State.
Record t : Type := Build {
  app : APP_STATE.t;
  doc : Document.t;
  isProcessing : bool;
  factsInterval : bool;
  trace : list Event
}.

Definition set_app (f : APP_STATE.t -> APP_STATE.t) (s : t) : t :=
  Build (f (app s)) (doc s) (isProcessing s) (factsInterval s) (trace s).

Definition set_doc (f : Document.t -> Document.t) (s : t) : t :=
  Build (app s) (f (doc s)) (isProcessing s) (factsInterval s) (trace s).

Definition set_isProcessing (b : bool) (s : t) : t :=
  Build (app s) (doc s) b (factsInterval s) (trace s).

Definition set_factsInterval (b : bool) (s : t) : t :=
  Build (app s) (doc s) (isProcessing s) b (trace s).

Definition record (e : Event) (s : t) : t :=
  Build (app s) (doc s) (isProcessing s) (factsInterval s) (trace s ++ [e]).

Definition set_page (f : Page.t -> Page.t) : t -> t :=
  set_doc (fun d => Document.Build (f (Document.page d)) (Document.processing d)
                      (Document.dashboard d) (Document.chat d)).

Definition set_processing (f : Processing.t -> Processing.t) : t -> t :=
  set_doc (fun d => Document.Build (Document.page d) (f (Document.processing d))
                      (Document.dashboard d) (Document.chat d)).

Definition set_dashboard (f : DashboardView.t -> DashboardView.t) : t -> t :=
  set_doc (fun d => Document.Build (Document.page d) (Document.processing d)
                      (f (Document.dashboard d)) (Document.chat d)).

Definition set_chat (f : ChatView.t -> ChatView.t) : t -> t :=
  set_doc (fun d => Document.Build (Document.page d) (Document.processing d)
                      (Document.dashboard d) (f (Document.chat d))).

(** Shorthands for the parts of the page. *)
Definition chatView (s : t) : ChatView.t := Document.chat (doc s).
Definition dashboardView (s : t) : DashboardView.t := Document.dashboard (doc s).
Definition transcript (s : t) : option (list ChatNode) :=
  ChatView.chatMessages (chatView s).
End State.

(* ===================================================================== *)
(** ** Programs: state, exceptions and suspension *)
(* ===================================================================== *)

Inductive prog (A : Type) : Type :=
| Ret (a : A)
| Throw (message : string)
| Reads (k : State.t -> prog A)
| Writes (f : State.t -> State.t) (k : prog A)
| Await (R : Type) (req : request R) (k : R -> prog A).

Arguments Ret {A} a.
Arguments Throw {A} message.
Arguments Reads {A} k.
Arguments Writes {A} f k.
Arguments Await {A R} req k.

Fixpoint bind {A B : Type} (p : prog A) (f : A -> prog B) : prog B :=
  match p with
  | Ret a => f a
  | Throw m => Throw m
  | Reads k => Reads (fun s => bind (k s) f)
  | Writes g k => Writes g (bind k f)
  | Await req k => Await req (fun r => bind (k r) f)
  end.

Declare Scope prog_scope.
Delimit Scope prog_scope with prog.
Bind Scope prog_scope with prog.

Notation "x <- p ;; q" := (bind p (fun x => q))
  (at level 61, p at next level, right associativity) : prog_scope.
Notation "p ;; q" := (bind p (fun _ => q))
  (at level 61, right associativity) : prog_scope.

(** A synchronous, exception-free call that updates the state. *)
Definition call (f : State.t -> State.t) : prog unit := Writes f (Ret tt).

(** [await] of a promise of the environment. *)
Definition await {R : Type} (req : request R) : prog R := Await req (@Ret R).

(** [try { p } catch (error) { h(error.message) }]. *)
Fixpoint try_catch {A : Type} (p : prog A) (h : string -> prog A) : prog A :=
  match p with
  | Ret a => Ret a
  | Throw m => h m
  | Reads k => Reads (fun s => try_catch (k s) h)
  | Writes g k => Writes g (try_catch k h)
  | Await req k => Await req (fun r => try_catch (k r) h)
  end.

(** [try { p } finally { f }]: [f] runs on both exits of [p], which then
    completes as it did. *)
Fixpoint finally {A : Type} (p : prog A) (f : prog unit) : prog A :=
  match p with
  | Ret a => bind f (fun _ => Ret a)
  | Throw m => bind f (fun _ => Throw m)
  | Reads k => Reads (fun s => finally (k s) f)
  | Writes g k => Writes g (finally k f)
  | Await req k => Await req (fun r => finally (k r) f)
  end.

(** How a call ends: it returned, threw, or is suspended on a request with
    the rest of the function as continuation. *)
Inductive result (A : Type) : Type :=
| Returned (a : A)
| Thrown (message : string)
| Suspended (R : Type) (req : request R) (k : R -> prog A).

Arguments Returned {A} a.
Arguments Thrown {A} message.
Arguments Suspended {A R} req k.

(** One synchronous stretch: from a call, or from the resumption of a
    continuation, to the next suspension or the end.  Reaching an [await]
    has issued its request, which the history records. *)
Fixpoint run {A : Type} (p : prog A) (s : State.t) : State.t * result A :=
  match p with
  | Ret a => (s, Returned a)
  | Throw m => (s, Thrown m)
  | Reads k => run (k s) s
  | Writes f k => run k (f s)
  | Await req k => (State.record (Requested req) s, Suspended req k)
  end.

(** An environment answers every request. *)
Definition environment : Type := forall R : Type, request R -> R.

Inductive outcome (A : Type) : Type :=
| Completed_with (a : A)
| Failed_with (message : string).

Arguments Completed_with {A} a.
Arguments Failed_with {A} message.

(** A whole call with no other handler running at its suspension points:
    every request is answered by [env] at once. *)
Fixpoint exec {A : Type} (env : environment) (p : prog A) (s : State.t)
  : State.t * outcome A :=
  match p with
  | Ret a => (s, Completed_with a)
  | Throw m => (s, Failed_with m)
  | Reads k => exec env (k s) s
  | Writes f k => exec env k (f s)
  | Await req k => exec env (k (env _ req)) (State.record (Requested req) s)
  end.

(** [Array.prototype.sort(comparefn)] on a copy of the array.  The
    comparator's value is read as the standard prescribes: NaN counts as
    +0, and [x] goes after [y] exactly when [comparefn(x, y) > 0].  The
    standard requires the sort to be stable, and for a consistent
    comparator the stable result is unique ([stable_sort_unique] below), so
    that on such inputs the insertion sort written here returns what every
    conforming engine returns.  On an inconsistent comparator the order is
    the engine's choice, and the function below is then one possible
    answer only: the comparator of [renderClausesList] is consistent when
    the levels of the clauses are all in its [order] table, or all outside
    it. *)
Module ArraySort.
Section Sort.
Context {A : Type} (comparefn : A -> A -> JS.number).

Definition goes_after (v : JS.number) : bool :=
  match v with
  | JS.NaN | JS.NegInfinity => false
  | JS.Infinity => true
  | JS.Finite q => negb (Qle_bool q 0)
  end.

Fixpoint insert (x : A) (l : list A) : list A :=
  match l with
  | [] => [x]
  | y :: l' => if goes_after (comparefn x y) then y :: insert x l' else x :: l
  end.

Fixpoint sort (l : list A) : list A :=
  match l with
  | [] => []
  | x :: l' => insert x (sort l')
  end.
End Sort.
End ArraySort.

(* ===================================================================== *)
(** ** api.js *)
(* ===================================================================== *)

Module Toast.
(** [Toast.show(message, type)]: the toast is appended to the container;
    its removal after five seconds is left out. *)
Definition show (message type : string) : State.t -> State.t :=
  State.record (Toasted type message).

Definition success (message : string) := show message "success".
Definition error (message : string) := show message "error".
Definition info (message : string) := show message "info".
End Toast.

Module API.
Local Open Scope prog_scope.

(** The shared shape of the wrappers: await the exchange, throw
    [new Error(error.detail || fallback)] on a response that is not ok,
    rethrow a rejection, return the parsed body otherwise. *)
Definition settle {A : Type} (fallback : string) (r : fetch_result A) : prog A :=
  match r with
  | NetworkFailure m => Throw m
  | HttpFailure detail => Throw (JS.or_else detail fallback)
  | HttpSuccess body => Ret body
  end.

(** [API.uploadFile(file)]. *)
Definition uploadFile (file : File.t) : prog Upload.t :=
  r <- await (FetchUpload file) ;; settle "Upload failed" r.

(** [API.extractClauses(docId)]. *)
Definition extractClauses (docId : string) : prog Extraction.t :=
  r <- await (FetchExtract docId) ;; settle "Extraction failed" r.

(** [API.sendChatMessage(sessionId, docId, query)]. *)
Definition sendChatMessage (sessionId docId : option string) (query : string)
  : prog ChatReply.t :=
  r <- await (FetchChat sessionId docId query) ;; settle "Chat request failed" r.

(** [API.clearChatSession(sessionId)]: a response that is not ok throws a
    fixed message, whatever its body. *)
Definition clearChatSession (sessionId : string) : prog unit :=
  r <- await (FetchClearSession sessionId) ;;
  match r with
  | NetworkFailure m => Throw m
  | HttpFailure _ => Throw "Failed to clear chat session"
  | HttpSuccess body => Ret body
  end.

(** [API.exportToExcel(docId)]; the download of the received file leaves
    the state of the controller alone. *)
Definition exportToExcel (docId : string) : prog bool :=
  r <- await (FetchExport docId) ;;
  match r with
  | NetworkFailure m => Throw m
  | HttpFailure _ => Throw "Export failed"
  | HttpSuccess _ => Ret true
  end.

(** [API.healthCheck()]: [response.ok], and [false] on a rejection. *)
Definition healthCheck : prog bool :=
  r <- await FetchHealth ;;
  match r with
  | HttpSuccess _ => Ret true
  | _ => Ret false
  end.
End API.

(** [FactsManager]: only whether the rotation interval is set; the fact
    shown carries no state of the controller.  [startRotation] does not
    clear an interval that is already running, and the flag does not count
    intervals: it tells what is running only for calls made while no
    rotation is running. *)
Module FactsManager.
Definition startRotation : State.t -> State.t := State.set_factsInterval true.
Definition stopRotation : State.t -> State.t := State.set_factsInterval false.
End FactsManager.

(* ===================================================================== *)
(** ** dashboard.js *)
(* ===================================================================== *)

Module Dashboard.

(** The [order] table of the comparator. *)
Definition order : list (string * Z) :=
  [("HIGH", 0); ("MEDIUM", 1); ("LOW", 2); ("NOT_FOUND", 3)].

(** [order[level]] as a number: [None] when the read yields no number
    ([undefined], or an inherited member). *)
Fixpoint order_of_in (table : list (string * Z)) (level : string) : option Z :=
  match table with
  | [] => None
  | (k, v) :: rest => if String.eqb k level then Some v else order_of_in rest level
  end.

Definition order_of : string -> option Z := order_of_in order.

(** [(a, b) => order[a.risk_level] - order[b.risk_level]]. *)
Definition compareClauses (a b : Clause.t) : JS.number :=
  match order_of (Clause.risk_level a), order_of (Clause.risk_level b) with
  | Some x, Some y => JS.of_Z (x - y)
  | _, _ => JS.NaN
  end.

(** [sortedClauses] of [renderClausesList]. *)
Definition sortedClauses (clauses : list Clause.t) : list Clause.t :=
  ArraySort.sort compareClauses clauses.

(** [Dashboard.createClauseElement(clause)]. *)
Definition createClauseElement (clause : Clause.t) : ClauseItem.t :=
  let level := Clause.risk_level clause in
  let riskBadgeClass :=
    if String.eqb level "HIGH" then "risk-high"
    else if String.eqb level "MEDIUM" then "risk-medium"
    else if String.eqb level "LOW" then "risk-low"
    else "risk-not-found" in
  let clauseText :=
    match Clause.extracted_text clause with
    | Some (String c t) =>
        if Clause.found clause then Utils.truncateText (String c t) 200
        else "Clause not found in contract"
    | _ => "Clause not found in contract"
    end in
  ClauseItem.Build (JS.toLowerCase level) false riskBadgeClass clauseText clause.

(** [Dashboard.renderClausesList(clauses)]. *)
Definition renderClausesList (clauses : list Clause.t) (s : State.t) : State.t :=
  match DashboardView.clausesList (State.dashboardView s) with
  | None => s
  | Some _ =>
      State.set_dashboard (fun d =>
        DashboardView.Build (DashboardView.dashboardFileName d)
          (DashboardView.overallScore d) (DashboardView.overallRiskLevel d)
          (DashboardView.highRiskCount d) (DashboardView.mediumRiskCount d)
          (DashboardView.lowRiskCount d) (DashboardView.missingCriticalCount d)
          (Some (map createClauseElement (sortedClauses clauses)))) s
  end.

(** [Dashboard.renderRiskOverview(data)].  The gauge (a stroke offset set
    from a timer) is left out. *)
Definition renderRiskOverview (data : Extraction.t) : State.t -> State.t :=
  State.set_dashboard (fun d =>
    DashboardView.Build (DashboardView.dashboardFileName d)
      (option_map (fun _ => Qfloor (Extraction.overall_risk_score data + (1 # 2)))
         (DashboardView.overallScore d))
      (option_map (fun _ => (Extraction.risk_level data,
                             Utils.getRiskColor (Extraction.risk_level data)))
         (DashboardView.overallRiskLevel d))
      (Extraction.high_risk_count data) (Extraction.medium_risk_count data)
      (Extraction.low_risk_count data) (Extraction.missing_critical_count data)
      (DashboardView.clausesList d)).

(** [Dashboard.render(data)]. *)
Definition render (data : Extraction.t) (s : State.t) : State.t :=
  let s1 :=
    State.set_dashboard (fun d =>
      DashboardView.Build
        (option_map (fun _ => Extraction.filename data)
           (DashboardView.dashboardFileName d))
        (DashboardView.overallScore d) (DashboardView.overallRiskLevel d)
        (DashboardView.highRiskCount d) (DashboardView.mediumRiskCount d)
        (DashboardView.lowRiskCount d) (DashboardView.missingCriticalCount d)
        (DashboardView.clausesList d)) s in
  renderClausesList (Extraction.clauses data) (renderRiskOverview data s1).

(** The body of the [forEach] of [filterClauses], on one item. *)
Definition filterItem (filter : string) (item : ClauseItem.t) : ClauseItem.t :=
  let riskLevel := ClauseItem.riskLevel item in
  if String.eqb filter "all" then ClauseItem.set_hidden false item
  else if String.eqb filter "high" then
    ClauseItem.set_hidden (negb (String.eqb riskLevel "high")) item
  else if String.eqb filter "medium" then
    ClauseItem.set_hidden (negb (String.eqb riskLevel "medium")) item
  else if String.eqb filter "low" then
    ClauseItem.set_hidden (negb (String.eqb riskLevel "low")) item
  else if String.eqb filter "missing" then
    ClauseItem.set_hidden (negb (String.eqb riskLevel "not_found")) item
  else item.

(** [Dashboard.filterClauses(filter)]: every [.clause-item] of the page is
    a child of [#clausesList]. *)
Definition filterClauses (filter : string) : State.t -> State.t :=
  State.set_dashboard (fun d =>
    DashboardView.Build (DashboardView.dashboardFileName d)
      (DashboardView.overallScore d) (DashboardView.overallRiskLevel d)
      (DashboardView.highRiskCount d) (DashboardView.mediumRiskCount d)
      (DashboardView.lowRiskCount d) (DashboardView.missingCriticalCount d)
      (option_map (map (filterItem filter)) (DashboardView.clausesList d))).

(** The click handler that [setupFilters] installs on a filter button. *)
Definition onFilterClick (filter : string) (s : State.t) : State.t :=
  filterClauses filter
    (State.set_app (fun a =>
       APP_STATE.Build (APP_STATE.currentDocId a) (APP_STATE.currentSessionId a)
         (APP_STATE.extractionData a) filter) s).

(** The clauses on display: those of the items that are not hidden, in
    the order of the list. *)
Definition visibleClauses (s : State.t) : list Clause.t :=
  match DashboardView.clausesList (State.dashboardView s) with
  | None => []
  | Some items =>
      map ClauseItem.clause (filter (fun i => negb (ClauseItem.hidden i)) items)
  end.

End Dashboard.

(* ===================================================================== *)
(** ** app.js *)
(* ===================================================================== *)

Module App.
Local Open Scope prog_scope.

(** [App.showSection(sectionId)]: the section becomes the active one when
    the page has it; otherwise no section is active. *)
Definition showSection (sectionId : string) : State.t -> State.t :=
  State.set_page (fun p =>
    Page.Build (Page.sections p)
      (if existsb (String.eqb sectionId) (Page.sections p)
       then Some sectionId else None)
      (Page.fileInput p)).

(** The class written on [step<i>] by the loop of [updateProcessingStep]. *)
Definition stepClass (i stepNumber : Z) : StepClass :=
  if i <? stepNumber then Completed
  else if i =? stepNumber then Active
  else Plain.

(** The loop [for (i = 1; i <= 5; i++)] over the step elements, the list
    holding [step1], [step2], ... in this order. *)
Fixpoint updateSteps (i stepNumber : Z) (els : list (option StepClass))
  : list (option StepClass) :=
  match els with
  | [] => []
  | e :: rest =>
      (if i <=? 5 then option_map (fun _ => stepClass i stepNumber) e else e)
        :: updateSteps (i + 1) stepNumber rest
  end.

(** [(stepNumber / 5) * 100], as a rational: the value the code computes
    in doubles for the steps 0 to 5 that the controller passes. *)
Definition percentage (stepNumber : Z) : Q := (inject_Z stepNumber / 5) * 100.

(** [App.updateProcessingStep(stepNumber)]. *)
Definition updateProcessingStep (stepNumber : Z) (s : State.t) : State.t :=
  State.record (ProcessingStep stepNumber (percentage stepNumber))
    (State.set_processing (fun p =>
       Processing.Build
         (option_map (fun _ => percentage stepNumber) (Processing.progressFill p))
         (updateSteps 1 stepNumber (Processing.stepElements p))
         (option_map (fun _ =>
            if stepNumber =? 5 then ("Complete", "status-badge status-complete")
            else ("Processing", "status-badge status-processing"))
            (Processing.processingStatus p))
         (Processing.processingFileName p)
         (Processing.processingPages p)) s).

(** [App.updateProcessingInfo(filename, pages)]. *)
Definition updateProcessingInfo (filename : string) (pages : option Z)
  : State.t -> State.t :=
  State.set_processing (fun p =>
    Processing.Build (Processing.progressFill p) (Processing.stepElements p)
      (Processing.processingStatus p)
      (option_map (fun _ => filename) (Processing.processingFileName p))
      (match Processing.processingPages p, pages with
       | Some old, Some n => if n =? 0 then Some old else Some (JS.string_of_Z n)
       | old, _ => old
       end)).

(** [App.delay(ms)], awaited. *)
Definition delay (ms : Z) : prog unit := await (Sleep ms).

Definition set_currentDocId (v : option string) : State.t -> State.t :=
  State.set_app (fun a =>
    APP_STATE.Build v (APP_STATE.currentSessionId a)
      (APP_STATE.extractionData a) (APP_STATE.currentFilter a)).

Definition set_extractionData (v : option Extraction.t) : State.t -> State.t :=
  State.set_app (fun a =>
    APP_STATE.Build (APP_STATE.currentDocId a) (APP_STATE.currentSessionId a)
      v (APP_STATE.currentFilter a)).

(** The validation at the head of [handleFileUpload]: the message of the
    toast when the file is refused. *)
Definition validateFile (file : File.t) : option string :=
  if negb (JS.endsWith (JS.toLowerCase (File.name file)) ".pdf")
  then Some "Please upload a PDF file"
  else if File.size file >? 10 * 1024 * 1024
  then Some "File size must be less than 10MB"
  else None.

(** The [try] block of [handleFileUpload]. *)
Definition pipeline (file : File.t) : prog unit :=
  call (updateProcessingStep 1) ;;
  uploadResult <- API.uploadFile file ;;
  call (set_currentDocId (Some (Upload.doc_id uploadResult))) ;;
  call (updateProcessingInfo (Upload.filename uploadResult)
          (Some (Upload.num_pages uploadResult))) ;;
  call (Toast.success "File uploaded successfully") ;;
  delay 1000 ;;
  call (updateProcessingStep 2) ;;
  delay 2000 ;;
  call (updateProcessingStep 3) ;;
  extractionResult <- API.extractClauses (Upload.doc_id uploadResult) ;;
  call (set_extractionData (Some extractionResult)) ;;
  call (updateProcessingStep 4) ;;
  delay 2000 ;;
  call (updateProcessingStep 5) ;;
  delay 1000 ;;
  call FactsManager.stopRotation ;;
  call (Toast.success "Analysis complete!") ;;
  call (showSection "dashboard-section") ;;
  call (Dashboard.render extractionResult).

(** The [catch] block of [handleFileUpload]; the callback of its timer
    shows the upload section again. *)
Definition pipelineFailed (message : string) : prog unit :=
  call FactsManager.stopRotation ;;
  call (Toast.error (JS.or_else (Some message) "An error occurred during processing")) ;;
  call (State.record (TimeoutSet 3000 "upload-section")).

(** [App.handleFileUpload(file)]. *)
Definition handleFileUpload (file : File.t) : prog unit :=
  match validateFile file with
  | Some message => call (Toast.error message)
  | None =>
      call (showSection "processing-section") ;;
      call (updateProcessingStep 0) ;;
      call (updateProcessingInfo (File.name file) None) ;;
      call FactsManager.startRotation ;;
      try_catch (pipeline file) pipelineFailed
  end.

(** [App.handleExport()]. *)
Definition handleExport : prog unit :=
  Reads (fun s =>
    match APP_STATE.currentDocId (State.app s) with
    | Some (String c t) =>
        try_catch
          (call (Toast.info "Generating Excel file...") ;;
           API.exportToExcel (String c t) ;;
           call (Toast.success "Excel file downloaded successfully"))
          (fun message => call (Toast.error ("Failed to export: " ++ message)))
    | _ => call (Toast.error "No document to export")
    end).

(** [App.checkBackendHealth()]. *)
Definition checkBackendHealth : prog unit :=
  isHealthy <- API.healthCheck ;;
  if isHealthy then Ret tt
  else call (Toast.error
    "Backend server is not responding. Please ensure it is running on port 8000.").

Definition set_currentSessionId (v : option string) : State.t -> State.t :=
  State.set_app (fun a =>
    APP_STATE.Build (APP_STATE.currentDocId a) v
      (APP_STATE.extractionData a) (APP_STATE.currentFilter a)).

(** [App.resetApplication()], with the clock and the random text its call
    of [Utils.generateSessionId] reads. *)
Definition resetApplication (now : Z) (rnd36 : string) (s : State.t) : State.t :=
  let s1 :=
    State.set_app (fun _ =>
      APP_STATE.Build None (Some (Utils.generateSessionId now rnd36)) None "all") s in
  let s2 :=
    State.set_page (fun p =>
      Page.Build (Page.sections p) (Page.activeSection p)
        (option_map (fun _ => "") (Page.fileInput p))) s1 in
  Toast.info "Ready for new analysis" (showSection "upload-section" s2).

End App.

(* ===================================================================== *)
(** ** The chat module *)
(* ===================================================================== *)

Module Chat.
Local Open Scope prog_scope.

(** The markup [clearChat] writes into [#chatMessages]. *)
Definition welcome : list ChatNode := [Welcome].

Fixpoint removeFirst (is_it : ChatNode -> bool) (nodes : list ChatNode)
  : list ChatNode :=
  match nodes with
  | [] => []
  | n :: rest => if is_it n then rest else n :: removeFirst is_it rest
  end.

Definition isWelcome (n : ChatNode) : bool :=
  match n with Welcome => true | _ => false end.

Definition isTyping (n : ChatNode) : bool :=
  match n with TypingIndicator => true | _ => false end.

Definition set_chatMessages (f : list ChatNode -> list ChatNode) : State.t -> State.t :=
  State.set_chat (fun c =>
    ChatView.Build (ChatView.chatInput c) (ChatView.sendBtn c)
      (option_map f (ChatView.chatMessages c))).

Definition set_chatInput (f : string -> string) : State.t -> State.t :=
  State.set_chat (fun c =>
    ChatView.Build (option_map f (ChatView.chatInput c)) (ChatView.sendBtn c)
      (ChatView.chatMessages c)).

Definition set_sendBtn (disabled : bool) : State.t -> State.t :=
  State.set_chat (fun c =>
    ChatView.Build (ChatView.chatInput c)
      (option_map (fun _ => disabled) (ChatView.sendBtn c))
      (ChatView.chatMessages c)).

(** [Chat.formatMessageText(text)]. *)
Definition formatMessageText (text : string) : string :=
  JS.replace_newlines "<br>" text.

(** The [sourcesList] of [addMessage]. *)
Definition sourcesList (sources : list Source.t) : string :=
  JS.join ", "
    (map (fun s =>
            match Source.clause_type s with
            | Some (String c t) => String c t ++ " (" ++ Source.risk_level s ++ ")"
            | _ => "Contract text"
            end) sources).

(** [Chat.addMessage(text, sender, sources)]: the welcome block goes, the
    message is appended.  The sources line is written for an ['ai']
    message with at least one source.  The text is written into the page
    as markup: the children of [#chatMessages] are what the page holds as
    long as no message made an element of its own (no [<] in a text but
    those of the break tags). *)
Definition addMessage (text sender : string) (sources : list Source.t)
  : State.t -> State.t :=
  set_chatMessages (fun nodes =>
    (removeFirst isWelcome nodes ++
     [Message sender (formatMessageText text)
        (match sources with
         | [] => ""
         | _ :: _ => if String.eqb sender "ai" then sourcesList sources else ""
         end)])%list).

(** [Chat.addTypingIndicator()]: the id it returns, [null] when the page
    has no [#chatMessages]. *)
Definition addTypingIndicator : prog (option string) :=
  Reads (fun s =>
    match State.transcript s with
    | None => Ret None
    | Some _ =>
        call (set_chatMessages (fun nodes => (nodes ++ [TypingIndicator])%list)) ;;
        Ret (Some "typing-indicator")
    end).

(** [Chat.removeTypingIndicator(id)]: the only element that can carry the
    id is an indicator inside [#chatMessages], as long as no message made
    an element with this id. *)
Definition removeTypingIndicator (id : option string) : State.t -> State.t :=
  match id with
  | Some _ => set_chatMessages (removeFirst isTyping)
  | None => fun s => s
  end.

(** The [try] block of [sendMessage]. *)
Definition exchange (query : string) (typingId : option string) : prog unit :=
  response <- Reads (fun s =>
    API.sendChatMessage (APP_STATE.currentSessionId (State.app s))
      (APP_STATE.currentDocId (State.app s)) query) ;;
  call (removeTypingIndicator typingId) ;;
  call (addMessage (ChatReply.answer response) "ai" (ChatReply.sources response)).

(** The [catch] block of [sendMessage]. *)
Definition exchangeFailed (typingId : option string) (message : string) : prog unit :=
  call (removeTypingIndicator typingId) ;;
  call (Toast.error ("Failed to get response: " ++ message)) ;;
  call (addMessage
          "Sorry, I encountered an error processing your question. Please try again."
          "ai" []).

(** The [finally] block of [sendMessage]. *)
Definition release : prog unit :=
  call (State.set_isProcessing false) ;;
  call (set_sendBtn false).

(** [Chat.sendMessage()]. *)
Definition sendMessage : prog unit :=
  Reads (fun s =>
    match ChatView.chatInput (State.chatView s), ChatView.sendBtn (State.chatView s) with
    | Some value, Some _ =>
        let query := JS.trim value in
        if negb (JS.truthy (Some query)) then
          call (Toast.error "Please enter a question")
        else if negb (JS.truthy (APP_STATE.currentDocId (State.app s))) then
          call (Toast.error "No document loaded")
        else if State.isProcessing s then Ret tt
        else
          call (State.set_isProcessing true) ;;
          call (set_sendBtn true) ;;
          call (addMessage query "user" []) ;;
          call (set_chatInput (fun _ => "")) ;;
          typingId <- addTypingIndicator ;;
          finally (try_catch (exchange query typingId) (exchangeFailed typingId))
            release
    | _, _ => Ret tt
    end).

(** [Chat.clearChat()]. *)
Definition clearChat : prog unit :=
  Reads (fun s =>
    match APP_STATE.currentSessionId (State.app s) with
    | Some (String c t) =>
        try_catch
          (API.clearChatSession (String c t) ;;
           call (set_chatMessages (fun _ => welcome)) ;;
           call (Toast.success "Chat cleared"))
          (fun _ => call (Toast.error "Failed to clear chat"))
    | _ => Ret tt
    end).

End Chat.

(* ===================================================================== *)
(** ** The event loop *)
(* ===================================================================== *)

(** Handlers run one at a time, each to its next suspension; a suspended
    call waits among the pending tasks until its request is answered. *)
Module EventLoop.
Local Open Scope prog_scope.

Inductive task : Type :=
| Task (R : Type) (req : request R) (k : R -> prog unit).

Arguments Task {R} req k.

Record system : Type := System { state : State.t; pending : list task }.

(** Runs [p] from the state of [sys]; a suspension joins the pending tasks. *)
Definition start (p : prog unit) (sys : system) : system :=
  match run p (state sys) with
  | (s', Suspended req k) => System s' (pending sys ++ [Task req k])
  | (s', _) => System s' (pending sys)
  end.

(** What the user can trigger, with the listener [App.setupEventListeners],
    [Dashboard.setupFilters] and [Chat.init] install for it.
    [NavigateUpload] is the click on the upload link of the navigation; the
    callback of the timer that [handleFileUpload] sets when the pipeline
    fails does the same. *)
Inductive action : Type :=
| PickFile (file : File.t)
| NewAnalysis (now : Z) (rnd36 : string)
| ClickFilter (filter : string)
| TypeQuery (text : string)
| Send
| SuggestedQuestion (text : string)
| ClearChat
| NavigateUpload
| Export.

Definition listener (a : action) : prog unit :=
  match a with
  | PickFile file => App.handleFileUpload file
  | NewAnalysis now rnd36 => call (App.resetApplication now rnd36)
  | ClickFilter filter => call (Dashboard.onFilterClick filter)
  | TypeQuery text => call (Chat.set_chatInput (fun _ => text))
  | Send => Chat.sendMessage
  | SuggestedQuestion text =>
      Reads (fun s =>
        match ChatView.chatInput (State.chatView s) with
        | Some _ => call (Chat.set_chatInput (fun _ => text)) ;; Chat.sendMessage
        | None => Ret tt
        end)
  | ClearChat => Chat.clearChat
  | NavigateUpload => call (App.showSection "upload-section")
  | Export => App.handleExport
  end.

(** The system when the scripts have run on a page [page]: [APP_STATE],
    [Chat.isProcessing] and [FactsManager.intervalId] have their initial
    values, and [App.init] has started the health check, then set the
    session id. *)
Definition loaded (now : Z) (rnd36 : string) (page : Document.t) : system :=
  let sys := start App.checkBackendHealth
               (System (State.Build APP_STATE.initial page false false []) []) in
  System (App.set_currentSessionId (Some (Utils.generateSessionId now rnd36)) (state sys))
         (pending sys).

Inductive step : system -> system -> Prop :=
| step_action (a : action) (sys : system) :
    step sys (start (listener a) sys)
| step_answer (R : Type) (req : request R) (k : R -> prog unit) (r : R)
    (before after : list task) (s : State.t) :
    step (System s (before ++ Task req k :: after))
         (start (k r) (System s (before ++ after))).

(** The systems the page can be in. *)
Inductive reachable : system -> Prop :=
| reachable_loaded (now : Z) (rnd36 : string) (page : Document.t) :
    reachable (loaded now rnd36 page)
| reachable_step (sys sys' : system) :
    reachable sys -> step sys sys' -> reachable sys'.

(** The oldest pending task answered by an environment. *)
Definition answer_first (env : environment) (sys : system) : system :=
  match pending sys with
  | [] => sys
  | Task req k :: rest => start (k (env _ req)) (System (state sys) rest)
  end.

Fixpoint answer_next (env : environment) (n : nat) (sys : system) : system :=
  match n with
  | O => sys
  | S n' => answer_next env n' (answer_first env sys)
  end.

Definition is_chat_task (t : task) : bool :=
  match t with Task req _ => is_chat_fetch req end.

(** The chat requests that are outstanding. *)
Definition inflight (sys : system) : nat :=
  List.length (filter is_chat_task (pending sys)).

End EventLoop.

(* ===================================================================== *)
(** ** Vocabulary of the statements *)
(* ===================================================================== *)

(** A list in which ranks never decrease. *)
Definition ranked {A : Type} (rank : A -> Z) : list A -> Prop :=
  StronglySorted (fun a b => rank a <= rank b).

(** The four values of [risk_level]. *)
Definition riskLevels : list string := ["HIGH"; "MEDIUM"; "LOW"; "NOT_FOUND"].

Definition knownLevel (c : Clause.t) : Prop := In (Clause.risk_level c) riskLevels.

(** The entry of the [order] table for the clause's level. *)
Definition rank (c : Clause.t) : Z :=
  match Dashboard.order_of (Clause.risk_level c) with
  | Some x => x
  | None => 0
  end.

Definition hasLevel (level : string) (c : Clause.t) : bool :=
  String.eqb (Clause.risk_level c) level.

(** Every clause of level [la] stands before every clause of level [lb]. *)
Definition precedes (la lb : string) (l : list Clause.t) : Prop :=
  forall (i j : nat) (a b : Clause.t),
    nth_error l i = Some a -> nth_error l j = Some b ->
    Clause.risk_level a = la -> Clause.risk_level b = lb -> (i < j)%nat.

(** The filter tags of the dashboard buttons. *)
Definition filterTags : list string := ["all"; "high"; "medium"; "low"; "missing"].


(** The clause list of the page shows the clauses [l], in this order, each
    item carrying the level of its clause as [createClauseElement] writes
    it. *)
Definition displays (l : list Clause.t) (s : State.t) : Prop :=
  exists items,
    DashboardView.clausesList (State.dashboardView s) = Some items
    /\ map ClauseItem.clause items = l
    /\ Forall (fun i => ClauseItem.riskLevel i
                        = JS.toLowerCase (Clause.risk_level (ClauseItem.clause i))) items.

(** The aggregate counts on display. *)
Definition counts (s : State.t) : Z * Z * Z * Z :=
  let d := State.dashboardView s in
  (DashboardView.highRiskCount d, DashboardView.mediumRiskCount d,
   DashboardView.lowRiskCount d, DashboardView.missingCriticalCount d).

(** Sample data for the instances below. *)
Definition sampleClause (type level : string) (found : bool) : Clause.t :=
  Clause.Build type found (if found then Some "text" else None) None None None
    (if found then 9 # 10 else 0) (if found then 50 else 0) level None.

Definition sampleClauses : list Clause.t :=
  [ sampleClause "Audit Rights" "NOT_FOUND" false;
    sampleClause "Cap On Liability" "HIGH" true;
    sampleClause "Governing Law" "LOW" true;
    sampleClause "Uncapped Liability" "HIGH" true;
    sampleClause "Renewal Term" "MEDIUM" true ].

Definition samplePage : Document.t :=
  Document.Build
    (Page.Build ["upload-section"; "processing-section"; "dashboard-section"]
       (Some "upload-section") (Some ""))
    (Processing.Build (Some 0%Q) [Some Plain; Some Plain; Some Plain; Some Plain; Some Plain]
       (Some ("Processing", "status-badge status-processing")) (Some "") (Some ""))
    (DashboardView.Build (Some "") (Some 0) (Some ("", "")) 0 0 0 0 (Some []))
    (ChatView.Build (Some "") (Some false) (Some [Welcome])).

Definition sampleState : State.t :=
  State.Build APP_STATE.initial samplePage false false [].


(** The step numbers and percentages that [updateProcessingStep] wrote,
    oldest first. *)
Definition stepsOf (tr : list Event) : list (Z * Q) :=
  flat_map (fun e => match e with
                     | ProcessingStep n p => [(n, p)]
                     | _ => []
                     end) tr.

(** The network requests issued, oldest first, by their end point. *)
Definition fetchesOf (tr : list Event) : list string :=
  flat_map (fun e => match e with
                     | Requested (FetchUpload _) => ["upload"]
                     | Requested (FetchExtract _) => ["extract"]
                     | Requested (FetchChat _ _ _) => ["chat"]
                     | Requested (FetchClearSession _) => ["clear"]
                     | Requested (FetchExport _) => ["export"]
                     | Requested FetchHealth => ["health"]
                     | _ => []
                     end) tr.

(** A run of the scenario of the specification: [msa.pdf] of 2 MiB, the
    upload answered with document [d1] of 12 pages, the extraction with
    a score of 72 and three clauses. *)
Definition sampleFile : File.t := File.Build "msa.pdf" (2 * 1024 * 1024).

Definition sampleExtraction : Extraction.t :=
  Extraction.Build "msa.pdf" 72 "HIGH" 1 1 0 1
    [ sampleClause "Audit Rights" "NOT_FOUND" false;
      sampleClause "Renewal Term" "MEDIUM" true;
      sampleClause "Cap On Liability" "HIGH" true ].

Definition sampleReply : ChatReply.t :=
  ChatReply.Build "Thirty days." [Source.Build (Some "Renewal Term") "MEDIUM"].

Definition sampleEnv : environment :=
  fun R req =>
    match req in request T return T with
    | FetchUpload file => HttpSuccess (Upload.Build "d1" (File.name file) 12)
    | FetchExtract _ => HttpSuccess sampleExtraction
    | FetchChat _ _ _ => HttpSuccess sampleReply
    | FetchClearSession _ => HttpSuccess tt
    | FetchExport _ => HttpSuccess tt
    | FetchHealth => HttpSuccess tt
    | Sleep _ => tt
    end.

(** An environment in which the chat end point answers with an error
    status. *)
Definition failingEnv : environment :=
  fun R req =>
    match req in request T return T with
    | FetchUpload file => HttpFailure None
    | FetchExtract _ => HttpFailure None
    | FetchChat _ _ _ => HttpFailure (Some "model overloaded")
    | FetchClearSession _ => HttpFailure None
    | FetchExport _ => HttpFailure None
    | FetchHealth => NetworkFailure "Failed to fetch"
    | Sleep _ => tt
    end.

(** A page in the middle of a conversation about document [d1]. *)
Definition chattingState : State.t :=
  State.Build
    (APP_STATE.Build (Some "d1") (Some "session_1_abc") (Some sampleExtraction) "high")
    (Document.Build (Document.page samplePage) (Document.processing samplePage)
       (Document.dashboard samplePage)
       (ChatView.Build (Some "") (Some false)
          (Some [Message "user" "What is the notice period?" "";
                 Message "ai" "Thirty days." "Renewal Term (MEDIUM)"])))
    false false [].

(** An exchange that did not end in a parsed, ok response. *)
Definition failed {A : Type} (r : fetch_result A) : Prop :=
  match r with
  | HttpSuccess _ => False
  | _ => True
  end.

(** A program that leaves [Chat.isProcessing] alone and awaits no chat
    request, now or after any resumption. *)
Inductive quiet {A : Type} : prog A -> Prop :=
| quiet_Ret (a : A) : quiet (Ret a)
| quiet_Throw (m : string) : quiet (Throw m)
| quiet_Reads (k : State.t -> prog A) :
    (forall s, quiet (k s)) -> quiet (Reads k)
| quiet_Writes (f : State.t -> State.t) (k : prog A) :
    (forall s, State.isProcessing (f s) = State.isProcessing s) ->
    quiet k -> quiet (Writes f k)
| quiet_Await (R : Type) (req : request R) (k : R -> prog A) :
    is_chat_fetch req = false -> (forall r, quiet (k r)) -> quiet (Await req k).

(** A program that runs to its end without suspension and leaves
    [Chat.isProcessing] false. *)
Definition closing (p : prog unit) : Prop :=
  forall s, exists s', run p s = (s', Returned tt) /\ State.isProcessing s' = false.

(** What the event loop keeps true of a pending task: the continuation of
    a chat request is closing, every other one is quiet. *)
Definition task_ok (t : EventLoop.task) : Prop :=
  match t with
  | EventLoop.Task req k =>
      if is_chat_fetch req then forall r, closing (k r) else forall r, quiet (k r)
  end.

(** A program that behaves as a call of [sendMessage] does: it returns
    with [Chat.isProcessing] as it was, or, from a state where the flag is
    false, takes the flag and suspends on a chat request whose continuation
    is closing. *)
Definition sending (p : prog unit) : Prop :=
  forall s,
    match run p s with
    | (s', Returned _) => State.isProcessing s' = State.isProcessing s
    | (s', Thrown _) => False
    | (s', Suspended req k) =>
        State.isProcessing s = false /\ State.isProcessing s' = true
        /\ is_chat_fetch req = true /\ (forall r, closing (k r))
    end.

(** [Chat.isProcessing] counts the chat requests that are outstanding. *)
Definition single_flight (sys : EventLoop.system) : Prop :=
  EventLoop.inflight sys = (if State.isProcessing (EventLoop.state sys) then 1 else 0)%nat.

(* ===================================================================== *)
(** ** Vocabulary of the further properties *)
(* ===================================================================== *)



(** The message of the error toast when the pipeline fails on the answer
    [r]: what the wrapper throws, or the generic message of
    [handleFileUpload] when that is empty. *)
Definition failureMessage {A : Type} (fallback : string) (r : fetch_result A) : string :=
  match r with
  | NetworkFailure m => JS.or_else (Some m) "An error occurred during processing"
  | HttpFailure detail =>
      JS.or_else (Some (JS.or_else detail fallback)) "An error occurred during processing"
  | HttpSuccess _ => ""
  end.

(** [along I Q E p s]: the program [p], started in [s], has [I] at each
    of its suspensions, provided that [I] holds of the state it is resumed
    in, whatever that state and the answer are; and it has [Q] when it
    returns and [E] when it throws. *)
Fixpoint along {A : Type} (I : State.t -> Prop) (Q : A -> State.t -> Prop)
  (E : string -> State.t -> Prop) (p : prog A) (s : State.t) : Prop :=
  match p with
  | Ret a => Q a s
  | Throw m => E m s
  | Reads k => along I Q E (k s) s
  | Writes f k => along I Q E k (f s)
  | Await req k =>
      I (State.record (Requested req) s)
      /\ (forall r s', I s' -> along I Q E (k r) s')
  end.

(** A handler that keeps [I]: started in a state with [I], it gives
    control back to the event loop only in states with [I]. *)
Definition keeps (I : State.t -> Prop) (p : prog unit) : Prop :=
  forall s, I s -> along I (fun _ => I) (fun _ => I) p s.

Definition task_keeps (I : State.t -> Prop) (t : EventLoop.task) : Prop :=
  match t with
  | EventLoop.Task req k => forall r, keeps I (k r)
  end.

(** A request the controller may send: an upload carries a file that
    passed the validation; a chat request a session id, a document id and
    a query that are not empty; the deletion of a session and an export an
    id that is not empty. *)
Definition request_ok (e : Event) : Prop :=
  match e with
  | Requested (FetchUpload file) => App.validateFile file = None
  | Requested (FetchChat sessionId docId query) =>
      JS.truthy sessionId = true /\ JS.truthy docId = true /\ query <> ""
  | Requested (FetchClearSession sessionId) => sessionId <> ""
  | Requested (FetchExport docId) => docId <> ""
  | _ => True
  end.

(** The state of the page between two handlers, as the event loop keeps
    it: a session id is set, the send button is disabled while
    [Chat.isProcessing] is true, and every request sent so far was one
    the controller may send. *)
Definition well_formed (s : State.t) : Prop :=
  JS.truthy (APP_STATE.currentSessionId (State.app s)) = true
  /\ (State.isProcessing s = true ->
      ChatView.sendBtn (State.chatView s) = Some true)
  /\ Forall request_ok (State.trace s).

(** The line feeds of a text. *)
Fixpoint countNewlines (s : string) : nat :=
  match s with
  | EmptyString => O
  | String c s' => ((if (N_of_ascii c =? 10)%N then 1 else 0) + countNewlines s')%nat
  end.

Fixpoint hasNewline (s : string) : bool :=
  match s with
  | EmptyString => false
  | String c s' => (N_of_ascii c =? 10)%N || hasNewline s'
  end.


(** A program that, run to its end in any environment from any state,
    ends without an exception. *)
Definition completes (p : prog unit) : Prop :=
  forall (env : environment) (s : State.t),
    exists s', exec env p s = (s', Completed_with tt).









(* ===================================================================== *)
(** * Properties *)
(* ===================================================================== *)

Local Open Scope list_scope.

(** ** The string operations on examples *)

Example endsWith_upper_case :
  JS.endsWith (JS.toLowerCase "Contract.PDF") ".pdf" = true
  /\ JS.endsWith (JS.toLowerCase "contract.pdf.exe") ".pdf" = false
  /\ JS.endsWith (JS.toLowerCase "pdf") ".pdf" = false.
Proof. repeat split. Qed.

Example trim_examples :
  JS.trim "  a b  " = "a b" /\ JS.trim "   " = "" /\ JS.trim "" = "".
Proof. repeat split. Qed.

Example generateSessionId_example :
  Utils.generateSessionId 1700000000000 "0.4fzyo82mvyr"
  = "session_1700000000000_4fzyo82mv".
Proof. reflexivity. Qed.

Example dashboard_of_sample :
  map Clause.clause_type
    (Dashboard.visibleClauses
       (Dashboard.render sampleExtraction sampleState))
  = ["Cap On Liability"; "Renewal Term"; "Audit Rights"]
  /\ DashboardView.overallRiskLevel
       (State.dashboardView (Dashboard.render sampleExtraction sampleState))
     = Some ("HIGH", "#ef4444").
Proof. split; reflexivity. Qed.

(** ** Risk classification *)

Lemma ge_finite (q : Q) (z : Z) :
  JS.ge (JS.Finite q) (JS.of_Z z) = true <-> (inject_Z z <= q)%Q.
Proof. unfold JS.ge, JS.of_Z. apply Qle_bool_iff. Qed.

Lemma ge_finite_false (q : Q) (z : Z) :
  JS.ge (JS.Finite q) (JS.of_Z z) = false <-> (q < inject_Z z)%Q.
Proof.
  unfold JS.ge, JS.of_Z. split; intros H.
  - apply Qnot_le_lt. intros Hle. apply Qle_bool_iff in Hle. congruence.
  - destruct (Qle_bool (inject_Z z) q) eqn:E; [|reflexivity].
    apply Qle_bool_iff in E. exfalso. exact (Qlt_not_le _ _ H E).
Qed.

Lemma getRiskLevel_high (q : Q) :
  Utils.getRiskLevel (JS.Finite q) = "HIGH" <-> (60 <= q)%Q.
Proof.
  unfold Utils.getRiskLevel. cbn [RiskBand.min RISK_CONFIG.HIGH RISK_CONFIG.MEDIUM].
  destruct (JS.ge (JS.Finite q) (JS.of_Z 60)) eqn:E.
  - apply ge_finite in E. split; auto.
  - apply ge_finite_false in E. split.
    + destruct (JS.ge _ _); discriminate.
    + intros H. exfalso. exact (Qlt_not_le _ _ E H).
Qed.

Lemma getRiskLevel_medium (q : Q) :
  Utils.getRiskLevel (JS.Finite q) = "MEDIUM" <-> (30 <= q /\ q < 60)%Q.
Proof.
  unfold Utils.getRiskLevel. cbn [RiskBand.min RISK_CONFIG.HIGH RISK_CONFIG.MEDIUM].
  destruct (JS.ge (JS.Finite q) (JS.of_Z 60)) eqn:E.
  - apply ge_finite in E. split; [discriminate|].
    intros [_ H]. exfalso. exact (Qlt_not_le _ _ H E).
  - apply ge_finite_false in E.
    destruct (JS.ge (JS.Finite q) (JS.of_Z 30)) eqn:E2.
    + apply ge_finite in E2. split; auto.
    + apply ge_finite_false in E2. split; [discriminate|].
      intros [H _]. exfalso. exact (Qlt_not_le _ _ E2 H).
Qed.

Lemma getRiskLevel_low (q : Q) :
  Utils.getRiskLevel (JS.Finite q) = "LOW" <-> (q < 30)%Q.
Proof.
  unfold Utils.getRiskLevel. cbn [RiskBand.min RISK_CONFIG.HIGH RISK_CONFIG.MEDIUM].
  destruct (JS.ge (JS.Finite q) (JS.of_Z 60)) eqn:E.
  - apply ge_finite in E. split; [discriminate|]. intros H. exfalso.
    apply (Qlt_not_le _ _ H). eapply Qle_trans; [|exact E]. discriminate.
  - destruct (JS.ge (JS.Finite q) (JS.of_Z 30)) eqn:E2.
    + apply ge_finite in E2. split; [discriminate|].
      intros H. exfalso. exact (Qlt_not_le _ _ H E2).
    + apply ge_finite_false in E2. split; auto.
Qed.

Lemma getRiskLevel_total (s : JS.number) :
  In (Utils.getRiskLevel s) ["HIGH"; "MEDIUM"; "LOW"].
Proof.
  unfold Utils.getRiskLevel.
  destruct (JS.ge s _); [simpl; auto|]. destruct (JS.ge s _); simpl; auto.
Qed.

(** C1.  [Utils.getRiskLevel] is total: every number, NaN and the
    infinities included, is classified HIGH, MEDIUM or LOW.  The bands are
    tested from the top with inclusive lower bounds: a finite score is HIGH
    exactly from 60 up, MEDIUM exactly from 30 up to (not including) 60,
    LOW exactly below 30.  Hence 60 and 100 are HIGH, 59 and 30 MEDIUM, 29
    and 0 LOW, every score below 0 is LOW and every score above 100 is
    HIGH. *)
Theorem getRiskLevel_bands :
  (forall s, In (Utils.getRiskLevel s) ["HIGH"; "MEDIUM"; "LOW"])
  /\ (forall q, Utils.getRiskLevel (JS.Finite q) = "HIGH" <-> (60 <= q)%Q)
  /\ (forall q, Utils.getRiskLevel (JS.Finite q) = "MEDIUM" <-> (30 <= q /\ q < 60)%Q)
  /\ (forall q, Utils.getRiskLevel (JS.Finite q) = "LOW" <-> (q < 30)%Q)
  /\ Utils.getRiskLevel (JS.of_Z 60) = "HIGH"
  /\ Utils.getRiskLevel (JS.of_Z 59) = "MEDIUM"
  /\ Utils.getRiskLevel (JS.of_Z 30) = "MEDIUM"
  /\ Utils.getRiskLevel (JS.of_Z 29) = "LOW"
  /\ Utils.getRiskLevel (JS.of_Z 0) = "LOW"
  /\ Utils.getRiskLevel (JS.of_Z 100) = "HIGH"
  /\ (forall q, (q < 0)%Q -> Utils.getRiskLevel (JS.Finite q) = "LOW")
  /\ (forall q, (100 < q)%Q -> Utils.getRiskLevel (JS.Finite q) = "HIGH")
  /\ Utils.getRiskLevel JS.NegInfinity = "LOW"
  /\ Utils.getRiskLevel JS.Infinity = "HIGH"
  /\ Utils.getRiskLevel JS.NaN = "LOW".
Proof.
  split; [exact getRiskLevel_total|].
  split; [exact getRiskLevel_high|].
  split; [exact getRiskLevel_medium|].
  split; [exact getRiskLevel_low|].
  do 6 (split; [reflexivity|]).
  split.
  { intros q Hq. apply getRiskLevel_low. eapply Qlt_trans; [exact Hq|reflexivity]. }
  split.
  { intros q Hq. apply getRiskLevel_high. apply Qlt_le_weak.
    eapply Qlt_trans; [|exact Hq]. reflexivity. }
  repeat split.
Qed.

(** ** Risk colours *)

Lemma color_of_other (level : string) :
  level <> "HIGH" -> level <> "MEDIUM" -> level <> "LOW" ->
  RISK_CONFIG.color_of level = None.
Proof.
  intros H1 H2 H3. unfold RISK_CONFIG.color_of, RISK_CONFIG.own. cbn [RISK_CONFIG.assoc].
  destruct (String.eqb_spec "HIGH" level); [congruence|].
  destruct (String.eqb_spec "MEDIUM" level); [congruence|].
  destruct (String.eqb_spec "LOW" level); [congruence|].
  reflexivity.
Qed.

(** C10.  [Utils.getRiskColor] is total on level strings: HIGH, MEDIUM and
    LOW give the colour of their band in [RISK_CONFIG]; every other string,
    NOT_FOUND among them, gives the grey fallback. *)
Theorem getRiskColor_total :
  Utils.getRiskColor "HIGH" = RiskBand.color RISK_CONFIG.HIGH
  /\ Utils.getRiskColor "MEDIUM" = RiskBand.color RISK_CONFIG.MEDIUM
  /\ Utils.getRiskColor "LOW" = RiskBand.color RISK_CONFIG.LOW
  /\ RiskBand.color RISK_CONFIG.HIGH = "#ef4444"
  /\ RiskBand.color RISK_CONFIG.MEDIUM = "#f59e0b"
  /\ RiskBand.color RISK_CONFIG.LOW = "#10b981"
  /\ Utils.getRiskColor "NOT_FOUND" = "#6b7280"
  /\ (forall level, level <> "HIGH" -> level <> "MEDIUM" -> level <> "LOW" ->
        Utils.getRiskColor level = "#6b7280").
Proof.
  do 7 (split; [reflexivity|]).
  intros level H1 H2 H3. unfold Utils.getRiskColor.
  rewrite (color_of_other level H1 H2 H3). reflexivity.
Qed.

(** ** Sorting by a rank *)

(** The comparator of the dashboard is a difference of ranks.  The facts
    about [ArraySort.sort] are proved for any such comparator, on the
    elements [P] where it is one. *)
Section SortByRank.
Context {A : Type} (rank : A -> Z) (comparefn : A -> A -> JS.number).
Context (P : A -> Prop).
Hypothesis comparefn_rank :
  forall a b, P a -> P b ->
    ArraySort.goes_after (comparefn a b) = (rank b <? rank a).

Lemma insert_Permutation (x : A) (l : list A) :
  Permutation (x :: l) (ArraySort.insert comparefn x l).
Proof.
  induction l as [|y l IH]; cbn [ArraySort.insert].
  - apply Permutation_refl.
  - destruct (ArraySort.goes_after (comparefn x y)).
    + eapply perm_trans; [apply perm_swap|]. apply perm_skip. exact IH.
    + apply Permutation_refl.
Qed.

Lemma sort_Permutation (l : list A) : Permutation l (ArraySort.sort comparefn l).
Proof.
  induction l as [|x l IH]; cbn [ArraySort.sort].
  - apply perm_nil.
  - eapply perm_trans; [apply perm_skip; exact IH|]. apply insert_Permutation.
Qed.

Lemma sort_Forall (Q : A -> Prop) (l : list A) :
  Forall Q l -> Forall Q (ArraySort.sort comparefn l).
Proof.
  intros H. rewrite Forall_forall in *. intros x Hx. apply H.
  eapply Permutation_in; [apply Permutation_sym, sort_Permutation|exact Hx].
Qed.

Lemma insert_ranked (x : A) (l : list A) :
  P x -> Forall P l -> ranked rank l -> ranked rank (ArraySort.insert comparefn x l).
Proof.
  intros Px HP Hs. induction Hs as [|y l Hs IH Hy]; cbn [ArraySort.insert].
  - constructor; [constructor|constructor].
  - inversion HP as [|? ? Py HP']; subst.
    rewrite (comparefn_rank x y Px Py).
    destruct (Z.ltb_spec (rank y) (rank x)) as [Hlt|Hge].
    + constructor; [exact (IH HP')|].
      rewrite Forall_forall. intros z Hz.
      apply (Permutation_in _ (Permutation_sym (insert_Permutation x l))) in Hz.
      destruct Hz as [<-|Hz]; [lia|].
      rewrite Forall_forall in Hy. exact (Hy z Hz).
    + constructor; [constructor; assumption|].
      constructor; [exact Hge|].
      rewrite Forall_forall in *. intros z Hz. specialize (Hy z Hz). lia.
Qed.

Lemma sort_ranked (l : list A) : Forall P l -> ranked rank (ArraySort.sort comparefn l).
Proof.
  induction l as [|x l IH]; intros HP; cbn [ArraySort.sort].
  - constructor.
  - inversion HP; subst. apply insert_ranked; auto. apply sort_Forall. assumption.
Qed.

(** A selection [f] that only picks elements of one rank sees the
    inserted element first among those it picks: the elements [insert]
    walks past have a smaller rank. *)
Lemma filter_insert (f : A -> bool) (x : A) (l : list A) :
  (forall a b, f a = true -> f b = true -> rank a = rank b) ->
  P x -> Forall P l ->
  filter f (ArraySort.insert comparefn x l) = filter f (x :: l).
Proof.
  intros Hf Px HP. induction HP as [|y l Py HP IH]; cbn [ArraySort.insert].
  - reflexivity.
  - rewrite (comparefn_rank x y Px Py).
    destruct (Z.ltb_spec (rank y) (rank x)) as [Hlt|Hge]; [|reflexivity].
    cbn [filter] in *. rewrite IH.
    destruct (f x) eqn:Fx, (f y) eqn:Fy; try reflexivity.
    specialize (Hf x y Fx Fy). lia.
Qed.

Lemma filter_sort (f : A -> bool) (l : list A) :
  (forall a b, f a = true -> f b = true -> rank a = rank b) ->
  Forall P l ->
  filter f (ArraySort.sort comparefn l) = filter f l.
Proof.
  intros Hf HP. induction HP as [|x l Px HP IH]; cbn [ArraySort.sort].
  - reflexivity.
  - rewrite filter_insert; auto using sort_Forall.
    cbn [filter]. rewrite IH. reflexivity.
Qed.

(** A list that is already in rank order comes back unchanged. *)
Lemma sort_ranked_id (l : list A) :
  Forall P l -> ranked rank l -> ArraySort.sort comparefn l = l.
Proof.
  intros HP Hs. induction Hs as [|x l Hs IH Hx]; cbn [ArraySort.sort].
  - reflexivity.
  - inversion HP as [|? ? Px HP']; subst. rewrite (IH HP').
    destruct l as [|y l]; [reflexivity|]. cbn [ArraySort.insert].
    inversion HP' as [|? ? Py _]; subst.
    rewrite (comparefn_rank x y Px Py).
    inversion Hx as [|? ? Hxy _]; subst.
    destruct (Z.ltb_spec (rank y) (rank x)); [lia|reflexivity].
Qed.

Lemma ranked_nth_error (l : list A) (i j : nat) (a b : A) :
  ranked rank l -> nth_error l i = Some a -> nth_error l j = Some b ->
  (i < j)%nat -> rank a <= rank b.
Proof.
  intros Hs. revert i j. induction Hs as [|x l Hs IH Hx]; intros i j Hi Hj Hlt.
  - destruct i; discriminate.
  - destruct j as [|j]; [lia|]. destruct i as [|i]; cbn in Hi, Hj.
    + injection Hi as <-. rewrite Forall_forall in Hx.
      apply Hx. eapply nth_error_In. exact Hj.
    + apply (IH i j Hi Hj). lia.
Qed.

(** In a ranked list an element of smaller rank stands before every
    element of larger rank. *)
Lemma ranked_precedes (l : list A) (i j : nat) (a b : A) :
  ranked rank l -> nth_error l i = Some a -> nth_error l j = Some b ->
  rank a < rank b -> (i < j)%nat.
Proof.
  intros Hs Hi Hj Hlt.
  destruct (Nat.lt_trichotomy i j) as [H|[H|H]]; [exact H| |].
  - subst j. rewrite Hi in Hj. injection Hj as <-. lia.
  - pose proof (ranked_nth_error l j i b a Hs Hj Hi H). lia.
Qed.

End SortByRank.

(** ** The clause list of the dashboard *)

Lemma order_of_known (c : Clause.t) :
  knownLevel c -> Dashboard.order_of (Clause.risk_level c) = Some (rank c).
Proof.
  unfold knownLevel, riskLevels, rank. cbn [In].
  intros [H|[H|[H|[H|[]]]]]; rewrite <- H; reflexivity.
Qed.

Lemma rank_range (c : Clause.t) : knownLevel c -> 0 <= rank c <= 3.
Proof.
  unfold knownLevel, riskLevels, rank. cbn [In].
  intros [H|[H|[H|[H|[]]]]]; rewrite <- H; cbn; lia.
Qed.

Lemma goes_after_of_Z (z : Z) : ArraySort.goes_after (JS.of_Z z) = (0 <? z).
Proof.
  unfold ArraySort.goes_after, JS.of_Z.
  destruct (Qle_bool (inject_Z z) 0) eqn:E.
  - apply Qle_bool_iff in E. change 0%Q with (inject_Z 0) in E.
    rewrite <- Zle_Qle in E. cbn. symmetry. apply Z.ltb_ge. exact E.
  - cbn. symmetry. apply Z.ltb_lt. apply Z.lt_nge. intros H.
    assert (Qle_bool (inject_Z z) 0 = true); [|congruence].
    apply Qle_bool_iff. change 0%Q with (inject_Z 0). rewrite <- Zle_Qle. exact H.
Qed.

Lemma compareClauses_rank (a b : Clause.t) :
  knownLevel a -> knownLevel b ->
  ArraySort.goes_after (Dashboard.compareClauses a b) = (rank b <? rank a).
Proof.
  intros Ha Hb. unfold Dashboard.compareClauses.
  rewrite (order_of_known a Ha), (order_of_known b Hb), goes_after_of_Z.
  destruct (Z.ltb_spec 0 (rank a - rank b)), (Z.ltb_spec (rank b) (rank a));
    try reflexivity; lia.
Qed.

Lemma hasLevel_rank (level : string) (a b : Clause.t) :
  hasLevel level a = true -> hasLevel level b = true -> rank a = rank b.
Proof.
  unfold hasLevel, rank. intros Ha Hb.
  apply String.eqb_eq in Ha, Hb. rewrite Ha, Hb. reflexivity.
Qed.

Lemma sortedClauses_ranked (clauses : list Clause.t) :
  Forall knownLevel clauses -> ranked rank (Dashboard.sortedClauses clauses).
Proof. apply (sort_ranked rank _ knownLevel compareClauses_rank). Qed.

Lemma sortedClauses_known (clauses : list Clause.t) :
  Forall knownLevel clauses -> Forall knownLevel (Dashboard.sortedClauses clauses).
Proof. apply sort_Forall. Qed.

Lemma ranked_level_precedes (la lb : string) (l : list Clause.t) :
  (forall a b, Clause.risk_level a = la -> Clause.risk_level b = lb -> rank a < rank b) ->
  ranked rank l -> precedes la lb l.
Proof.
  intros Hlt Hs i j a b Hi Hj Ha Hb.
  exact (ranked_precedes rank l i j a b Hs Hi Hj (Hlt a b Ha Hb)).
Qed.

Lemma renderClausesList_displays (clauses : list Clause.t) (s : State.t) :
  DashboardView.clausesList (State.dashboardView s) <> None ->
  displays (Dashboard.sortedClauses clauses) (Dashboard.renderClausesList clauses s).
Proof.
  intros Hs. unfold Dashboard.renderClausesList.
  destruct (DashboardView.clausesList (State.dashboardView s)) eqn:E; [|congruence].
  exists (map Dashboard.createClauseElement (Dashboard.sortedClauses clauses)).
  split; [reflexivity|]. split.
  - rewrite map_map. cbn. apply map_id.
  - rewrite Forall_map. apply Forall_forall. intros c _. reflexivity.
Qed.

(** C2.  For clauses whose level is HIGH, MEDIUM, LOW or NOT_FOUND, the
    list [renderClausesList] displays is a rearrangement of the clauses it
    was given in the order of the tiers HIGH, MEDIUM, LOW, NOT_FOUND: the
    rank of the [order] table never decreases along the list, so that every
    HIGH clause stands before every MEDIUM, LOW and NOT_FOUND one, every
    MEDIUM before every LOW and NOT_FOUND one, and every LOW before every
    NOT_FOUND one, whether or not the tiers in between are present.  The
    sort is stable: for each level, the clauses of that level come in the
    order they had upstream.  It is idempotent: sorting its result again,
    and more generally sorting any list already in this order, changes
    nothing.  This list is what [renderClausesList] writes to the page. *)
Theorem sortedClauses_ordered_stable (clauses : list Clause.t) :
  Forall knownLevel clauses ->
  let sorted := Dashboard.sortedClauses clauses in
  Permutation clauses sorted
  /\ precedes "HIGH" "MEDIUM" sorted
  /\ precedes "MEDIUM" "LOW" sorted
  /\ precedes "LOW" "NOT_FOUND" sorted
  /\ precedes "HIGH" "LOW" sorted
  /\ precedes "HIGH" "NOT_FOUND" sorted
  /\ precedes "MEDIUM" "NOT_FOUND" sorted
  /\ ranked rank sorted
  /\ (forall level, filter (hasLevel level) sorted = filter (hasLevel level) clauses)
  /\ Dashboard.sortedClauses sorted = sorted
  /\ (forall l, Forall knownLevel l -> ranked rank l -> Dashboard.sortedClauses l = l)
  /\ (forall s, DashboardView.clausesList (State.dashboardView s) <> None ->
        displays sorted (Dashboard.renderClausesList clauses s)).
Proof.
  intros Hk sorted.
  assert (Hs : ranked rank sorted) by (apply sortedClauses_ranked; exact Hk).
  split; [apply sort_Permutation|].
  split.
  { apply ranked_level_precedes; [|exact Hs].
    intros a b Ha Hb. unfold rank. rewrite Ha, Hb. reflexivity. }
  split.
  { apply ranked_level_precedes; [|exact Hs].
    intros a b Ha Hb. unfold rank. rewrite Ha, Hb. reflexivity. }
  split.
  { apply ranked_level_precedes; [|exact Hs].
    intros a b Ha Hb. unfold rank. rewrite Ha, Hb. reflexivity. }
  split.
  { apply ranked_level_precedes; [|exact Hs].
    intros a b Ha Hb. unfold rank. rewrite Ha, Hb. reflexivity. }
  split.
  { apply ranked_level_precedes; [|exact Hs].
    intros a b Ha Hb. unfold rank. rewrite Ha, Hb. reflexivity. }
  split.
  { apply ranked_level_precedes; [|exact Hs].
    intros a b Ha Hb. unfold rank. rewrite Ha, Hb. reflexivity. }
  split; [exact Hs|].
  split.
  { intros level.
    apply (filter_sort rank _ knownLevel compareClauses_rank); [|exact Hk].
    apply hasLevel_rank. }
  split.
  { apply (sort_ranked_id rank _ knownLevel compareClauses_rank); [|exact Hs].
    apply sortedClauses_known. exact Hk. }
  split.
  { intros l Hl Hr.
    apply (sort_ranked_id rank _ knownLevel compareClauses_rank); assumption. }
  intros s. apply renderClausesList_displays.
Qed.

Lemma sampleClauses_known : Forall knownLevel sampleClauses.
Proof. repeat constructor; unfold knownLevel, riskLevels; cbn; tauto. Qed.

(** An instance of C2: the sample list and its display order. *)
Lemma sortedClauses_ordered_stable_witness :
  Forall knownLevel sampleClauses
  /\ map Clause.clause_type (Dashboard.sortedClauses sampleClauses)
     = ["Cap On Liability"; "Uncapped Liability"; "Renewal Term";
        "Governing Law"; "Audit Rights"]
  /\ Permutation sampleClauses (Dashboard.sortedClauses sampleClauses)
  /\ precedes "HIGH" "MEDIUM" (Dashboard.sortedClauses sampleClauses)
  /\ precedes "HIGH" "NOT_FOUND" (Dashboard.sortedClauses sampleClauses)
  /\ ranked rank (Dashboard.sortedClauses sampleClauses).
Proof.
  pose proof (sortedClauses_ordered_stable sampleClauses sampleClauses_known) as H.
  cbv zeta in H.
  destruct H as (Hperm & Hhm & _ & _ & _ & Hhn & _ & Hr & _).
  split; [exact sampleClauses_known|].
  split; [reflexivity|].
  split; [exact Hperm|]. split; [exact Hhm|]. split; [exact Hhn|exact Hr].
Defined.

(** ** Filtering the clause list *)

Lemma filterClauses_frame (filter : string) (s : State.t) :
  State.app (Dashboard.filterClauses filter s) = State.app s
  /\ counts (Dashboard.filterClauses filter s) = counts s
  /\ State.trace (Dashboard.filterClauses filter s) = State.trace s
  /\ State.chatView (Dashboard.filterClauses filter s) = State.chatView s.
Proof. repeat split. Qed.

Lemma filterItem_clause (filter : string) (i : ClauseItem.t) :
  ClauseItem.clause (Dashboard.filterItem filter i) = ClauseItem.clause i
  /\ ClauseItem.riskLevel (Dashboard.filterItem filter i) = ClauseItem.riskLevel i.
Proof.
  unfold Dashboard.filterItem.
  repeat match goal with |- context [if ?b then _ else _] => destruct b end;
    split; reflexivity.
Qed.








(** ** The history of effects under the state updates *)

Lemma trace_record (e : Event) (s : State.t) :
  State.trace (State.record e s) = State.trace s ++ [e].
Proof. reflexivity. Qed.

Lemma trace_toast (message type : string) (s : State.t) :
  State.trace (Toast.show message type s) = State.trace s ++ [Toasted type message].
Proof. reflexivity. Qed.

Lemma trace_updateProcessingStep (n : Z) (s : State.t) :
  State.trace (App.updateProcessingStep n s)
  = State.trace s ++ [ProcessingStep n (App.percentage n)].
Proof. reflexivity. Qed.

Lemma trace_set_app f (s : State.t) : State.trace (State.set_app f s) = State.trace s.
Proof. reflexivity. Qed.

Lemma trace_set_doc f (s : State.t) : State.trace (State.set_doc f s) = State.trace s.
Proof. reflexivity. Qed.

Lemma trace_set_chat f (s : State.t) : State.trace (State.set_chat f s) = State.trace s.
Proof. reflexivity. Qed.

Lemma trace_set_factsInterval b (s : State.t) :
  State.trace (State.set_factsInterval b s) = State.trace s.
Proof. reflexivity. Qed.

Lemma trace_set_isProcessing b (s : State.t) :
  State.trace (State.set_isProcessing b s) = State.trace s.
Proof. reflexivity. Qed.

Lemma trace_renderClausesList clauses (s : State.t) :
  State.trace (Dashboard.renderClausesList clauses s) = State.trace s.
Proof.
  unfold Dashboard.renderClausesList.
  destruct (DashboardView.clausesList _); reflexivity.
Qed.

Lemma trace_render data (s : State.t) :
  State.trace (Dashboard.render data s) = State.trace s.
Proof. unfold Dashboard.render. rewrite trace_renderClausesList. reflexivity. Qed.

Create Rewrite HintDb trace.

#[local] Hint Rewrite trace_record trace_toast trace_updateProcessingStep
  trace_render trace_renderClausesList : trace.

(** Unfolds the state updates that leave the history alone down to the
    setters, and rewrites the history of the others. *)
Ltac trace_simpl :=
  unfold Toast.success, Toast.error, Toast.info,
    FactsManager.startRotation, FactsManager.stopRotation,
    App.showSection, App.updateProcessingInfo, App.set_currentDocId,
    App.set_extractionData, Chat.addMessage, Chat.set_chatMessages,
    Chat.set_chatInput, Chat.set_sendBtn, State.set_page, State.set_processing,
    State.set_dashboard in *;
  cbn [Chat.removeTypingIndicator] in *;
  unfold Chat.set_chatMessages in *;
  repeat (progress autorewrite with trace
          || rewrite trace_set_app || rewrite trace_set_chat || rewrite trace_set_doc
          || rewrite trace_set_factsInterval || rewrite trace_set_isProcessing).

Lemma stepsOf_app (l1 l2 : list Event) : stepsOf (l1 ++ l2) = stepsOf l1 ++ stepsOf l2.
Proof. apply flat_map_app. Qed.

Lemma fetchesOf_app (l1 l2 : list Event) :
  fetchesOf (l1 ++ l2) = fetchesOf l1 ++ fetchesOf l2.
Proof. apply flat_map_app. Qed.

(** ** Upload validation *)

Lemma validateFile_None (file : File.t) :
  App.validateFile file = None <->
  JS.endsWith (JS.toLowerCase (File.name file)) ".pdf" = true
  /\ File.size file <= 10 * 1024 * 1024.
Proof.
  unfold App.validateFile.
  destruct (JS.endsWith _ _); cbn [negb].
  - destruct (Z.gtb_spec (File.size file) (10 * 1024 * 1024)).
    + split; [discriminate|]. intros [_ H']. lia.
    + split; auto.
  - split; [discriminate|]. intros [H _]. discriminate.
Qed.

Lemma handleFileUpload_rejects (file : File.t) (s : State.t) (message : string) :
  App.validateFile file = Some message ->
  run (App.handleFileUpload file) s = (Toast.error message s, Returned tt).
Proof. intros H. unfold App.handleFileUpload. rewrite H. reflexivity. Qed.

Lemma handleFileUpload_uploads (file : File.t) (s : State.t) :
  App.validateFile file = None ->
  exists s' k,
    run (App.handleFileUpload file) s = (s', Suspended (FetchUpload file) k)
    /\ State.trace s'
       = State.trace s ++ [ProcessingStep 0 (App.percentage 0);
                           ProcessingStep 1 (App.percentage 1);
                           Requested (FetchUpload file)].
Proof.
  intros H. unfold App.handleFileUpload. rewrite H. cbn -[App.percentage].
  eexists. eexists. split; [reflexivity|].
  trace_simpl. rewrite <- !app_assoc. reflexivity.
Qed.

(** C4.  [handleFileUpload] refuses a file exactly when its name does not
    end in [.pdf], case apart, or its size is above 10 MiB.  A refused file
    costs one error toast and nothing else: the call returns with the page
    and [APP_STATE] as they were, no request issued, no step reported.  An
    accepted file takes the call to the upload request, the first request
    it issues.  A file of 0 bytes and one of exactly 10 MiB named as a PDF
    are accepted; one byte more, or the name [scan.png], is refused. *)
Theorem handleFileUpload_validation (file : File.t) (s : State.t) :
  let pdf := JS.endsWith (JS.toLowerCase (File.name file)) ".pdf" in
  let fits := File.size file <=? 10 * 1024 * 1024 in
  (pdf && fits = false ->
     exists message,
       run (App.handleFileUpload file) s
       = (State.record (Toasted "error" message) s, Returned tt))
  /\ (pdf && fits = true ->
     exists s' k,
       run (App.handleFileUpload file) s = (s', Suspended (FetchUpload file) k)
       /\ State.trace s'
          = State.trace s ++ [ProcessingStep 0 (App.percentage 0);
                              ProcessingStep 1 (App.percentage 1);
                              Requested (FetchUpload file)])
  /\ (exists k, snd (run (App.handleFileUpload (File.Build "contract.pdf" 0)) s)
                = Suspended (FetchUpload (File.Build "contract.pdf" 0)) k)
  /\ (exists k, snd (run (App.handleFileUpload
                            (File.Build "Contract.PDF" (10 * 1024 * 1024))) s)
                = Suspended (FetchUpload
                               (File.Build "Contract.PDF" (10 * 1024 * 1024))) k)
  /\ run (App.handleFileUpload (File.Build "contract.pdf" (10 * 1024 * 1024 + 1))) s
     = (State.record (Toasted "error" "File size must be less than 10MB") s, Returned tt)
  /\ (forall size, run (App.handleFileUpload (File.Build "scan.png" size)) s
     = (State.record (Toasted "error" "Please upload a PDF file") s, Returned tt)).
Proof.
  intros pdf fits.
  split.
  { intros Hbad.
    destruct (App.validateFile file) as [message|] eqn:E.
    - exists message. apply handleFileUpload_rejects. exact E.
    - apply validateFile_None in E. destruct E as [E1 E2].
      exfalso. subst pdf fits. rewrite E1 in Hbad. cbn in Hbad.
      apply Z.leb_gt in Hbad. lia. }
  split.
  { intros Hok. apply handleFileUpload_uploads. apply validateFile_None.
    subst pdf fits. apply andb_true_iff in Hok. destruct Hok as [H1 H2].
    split; [exact H1|]. apply Z.leb_le. exact H2. }
  split; [eexists; reflexivity|].
  split; [eexists; reflexivity|].
  split; [reflexivity|].
  intros size. reflexivity.
Qed.

(** ** Progress reporting *)

Lemma percentage_values :
  Forall2 Qeq (map App.percentage [0; 1; 2; 3; 4; 5]) [0; 20; 40; 60; 80; 100]%Q.
Proof. repeat constructor. Qed.

Lemma percentage_monotone (n m : Z) :
  n <= m -> (App.percentage n <= App.percentage m)%Q.
Proof.
  intros H. unfold App.percentage, Qle, Qdiv, Qmult, Qinv, inject_Z. cbn. lia.
Qed.

(** [exec] through the combinators. *)
Lemma exec_bind {A B : Type} (env : environment) (p : prog A) (f : A -> prog B)
  (s : State.t) :
  exec env (bind p f) s =
  match exec env p s with
  | (s', Completed_with a) => exec env (f a) s'
  | (s', Failed_with m) => (s', Failed_with m)
  end.
Proof.
  revert s. induction p as [a|m|k IH|g k IH|R req k IH]; intros s; cbn [bind exec];
    try reflexivity; apply IH.
Qed.

Lemma exec_try_catch {A : Type} (env : environment) (p : prog A)
  (h : string -> prog A) (s : State.t) :
  exec env (try_catch p h) s =
  match exec env p s with
  | (s', Completed_with a) => (s', Completed_with a)
  | (s', Failed_with m) => exec env (h m) s'
  end.
Proof.
  revert s. induction p as [a|m|k IH|g k IH|R req k IH]; intros s;
    cbn [try_catch exec]; try reflexivity; apply IH.
Qed.

Lemma exec_call (env : environment) (f : State.t -> State.t) (s : State.t) :
  exec env (call f) s = (f s, Completed_with tt).
Proof. reflexivity. Qed.

Lemma exec_await {R : Type} (env : environment) (req : request R) (s : State.t) :
  exec env (await req) s = (State.record (Requested req) s, Completed_with (env R req)).
Proof. reflexivity. Qed.

(** [exec] is [run] resumed at once at every suspension. *)
Lemma exec_run {A : Type} (env : environment) (p : prog A) (s : State.t) :
  exec env p s =
  match run p s with
  | (s', Returned a) => (s', Completed_with a)
  | (s', Thrown m) => (s', Failed_with m)
  | (s', Suspended req k) => exec env (k (env _ req)) s'
  end.
Proof.
  revert s. induction p as [a|m|k IH|g k IH|R req k IH]; intros s; cbn [exec run];
    try reflexivity; apply IH.
Qed.

Ltac exec_steps :=
  repeat (rewrite exec_bind || rewrite exec_call || rewrite exec_try_catch
          || rewrite exec_await).

Lemma pipeline_steps (file : File.t) (env : environment) (up : Upload.t)
  (ex : Extraction.t) (s : State.t) :
  App.validateFile file = None ->
  env _ (FetchUpload file) = HttpSuccess up ->
  env _ (FetchExtract (Upload.doc_id up)) = HttpSuccess ex ->
  snd (exec env (App.handleFileUpload file) s) = Completed_with tt
  /\ stepsOf (State.trace (fst (exec env (App.handleFileUpload file) s)))
     = stepsOf (State.trace s)
       ++ map (fun n => (n, App.percentage n)) [0; 1; 2; 3; 4; 5]
  /\ fetchesOf (State.trace (fst (exec env (App.handleFileUpload file) s)))
     = fetchesOf (State.trace s) ++ ["upload"; "extract"].
Proof.
  intros Hv Hu He. unfold App.handleFileUpload. rewrite Hv.
  unfold App.pipeline, API.uploadFile, API.extractClauses, App.delay.
  exec_steps. rewrite Hu. cbn [API.settle exec].
  exec_steps. rewrite He. cbn [API.settle exec].
  exec_steps. cbn [fst snd].
  split; [reflexivity|].
  trace_simpl. rewrite !stepsOf_app, !fetchesOf_app.
  cbn [stepsOf fetchesOf flat_map app map].
  rewrite !app_nil_r, <- !app_assoc. split; reflexivity.
Qed.

(** C7, as stated, fails: the successful sample run reports step 0 before
    step 1, so the steps it reports are 0, 1, 2, 3, 4, 5 and not
    1, 2, 3, 4, 5. *)
Lemma handleFileUpload_reports_step_zero :
  App.validateFile sampleFile = None
  /\ snd (exec sampleEnv (App.handleFileUpload sampleFile) sampleState)
     = Completed_with tt
  /\ map fst (stepsOf (State.trace
                (fst (exec sampleEnv (App.handleFileUpload sampleFile) sampleState))))
     = [0; 1; 2; 3; 4; 5]
  /\ map fst (stepsOf (State.trace
                (fst (exec sampleEnv (App.handleFileUpload sampleFile) sampleState))))
     <> [1; 2; 3; 4; 5].
Proof.
  split; [reflexivity|]. split; [reflexivity|].
  split; [vm_compute; reflexivity|vm_compute; discriminate].
Qed.

(** C7, amended.  On every run of [handleFileUpload] in which the file is
    accepted and both the upload and the extraction succeed, the call
    completes and the steps it reports through [updateProcessingStep] are
    0, 1, 2, 3, 4, 5 in this order, each once: step 0 when the processing
    section is shown, then the five stages.  Each report carries the
    percentage [step / 5 * 100], that is 0, 20, 40, 60, 80, 100; the
    percentage never decreases from one report to the next, and no other
    progress is reported. *)
Theorem handleFileUpload_progress (file : File.t) (env : environment)
  (up : Upload.t) (ex : Extraction.t) (s : State.t) :
  App.validateFile file = None ->
  env _ (FetchUpload file) = HttpSuccess up ->
  env _ (FetchExtract (Upload.doc_id up)) = HttpSuccess ex ->
  let s' := fst (exec env (App.handleFileUpload file) s) in
  snd (exec env (App.handleFileUpload file) s) = Completed_with tt
  /\ map fst (stepsOf (State.trace s'))
     = map fst (stepsOf (State.trace s)) ++ [0; 1; 2; 3; 4; 5]
  /\ stepsOf (State.trace s')
     = stepsOf (State.trace s) ++ map (fun n => (n, App.percentage n)) [0; 1; 2; 3; 4; 5]
  /\ Forall2 Qeq (map App.percentage [0; 1; 2; 3; 4; 5]) [0; 20; 40; 60; 80; 100]%Q
  /\ (forall n m, n <= m -> (App.percentage n <= App.percentage m)%Q).
Proof.
  intros Hv Hu He s'.
  destruct (pipeline_steps file env up ex s Hv Hu He) as (Hdone & Hsteps & _).
  fold s' in Hsteps.
  split; [exact Hdone|].
  split; [rewrite Hsteps, map_app; reflexivity|].
  split; [exact Hsteps|].
  split; [exact percentage_values|exact percentage_monotone].
Qed.

(** An instance of C7 as amended: the run of the sample scenario. *)
Lemma handleFileUpload_progress_witness :
  App.validateFile sampleFile = None
  /\ map fst (stepsOf (State.trace
                (fst (exec sampleEnv (App.handleFileUpload sampleFile) sampleState))))
     = [0; 1; 2; 3; 4; 5].
Proof.
  split; [reflexivity|].
  exact (proj1 (proj2 (handleFileUpload_progress sampleFile sampleEnv
                         (Upload.Build "d1" "msa.pdf" 12) sampleExtraction sampleState
                         eq_refl eq_refl eq_refl))).
Defined.

(** ** Starting a new analysis *)

Lemma digits_no_underscore (d : Decimal.uint) (a b : string) :
  NilEmpty.string_of_uint d <> (a ++ String "_" b)%string.
Proof.
  revert a. induction d as [|d IH|d IH|d IH|d IH|d IH|d IH|d IH|d IH|d IH|d IH];
    intros a; cbn [NilEmpty.string_of_uint];
    destruct a as [|c a]; cbn [String.append]; try discriminate;
    intros H; injection H as _ H; exact (IH a H).
Qed.

Lemma string_of_Z_no_underscore (z : Z) (a b : string) :
  JS.string_of_Z z <> (a ++ String "_" b)%string.
Proof.
  assert (Hu : forall d a, NilZero.string_of_uint d <> (a ++ String "_" b)%string).
  { intros d a'. destruct d; try apply digits_no_underscore.
    cbn. destruct a' as [|c [|c' a']]; discriminate. }
  unfold JS.string_of_Z. destruct (Z.to_int z) as [d|d]; cbn [NilZero.string_of_int].
  - apply Hu.
  - destruct a as [|c a]; cbn [String.append]; [discriminate|].
    intros H. injection H as _ H. exact (Hu d a H).
Qed.

Lemma string_of_Z_inj (z1 z2 : Z) : JS.string_of_Z z1 = JS.string_of_Z z2 -> z1 = z2.
Proof.
  assert (Hn : forall z, Z.to_int z <> Decimal.Pos Decimal.Nil
                         /\ Z.to_int z <> Decimal.Neg Decimal.Nil).
  { intros [|p|p]; cbn [Z.to_int]; split; try discriminate;
      intros H; injection H as H; exact (DecimalPos.Unsigned.to_uint_nonnil p H). }
  unfold JS.string_of_Z. intros H. apply DecimalZ.to_int_inj.
  assert (H' : NilZero.int_of_string (NilZero.string_of_int (Z.to_int z1))
               = NilZero.int_of_string (NilZero.string_of_int (Z.to_int z2)))
    by (rewrite H; reflexivity).
  rewrite !NilZero.isi in H' by apply Hn. injection H' as H'. exact H'.
Qed.

Lemma split_at_underscore (d1 d2 t1 t2 : string) :
  (forall a b, d1 <> (a ++ String "_" b)%string) ->
  (forall a b, d2 <> (a ++ String "_" b)%string) ->
  (d1 ++ String "_" t1 = d2 ++ String "_" t2)%string ->
  d1 = d2 /\ t1 = t2.
Proof.
  revert d2. induction d1 as [|c d1 IH]; intros [|c' d2] H1 H2 H; cbn [String.append] in H.
  - injection H as H. split; [reflexivity|exact H].
  - injection H as Hc H. exfalso. apply (H2 ""%string d2). rewrite <- Hc. reflexivity.
  - injection H as Hc H. exfalso. apply (H1 ""%string d1). rewrite Hc. reflexivity.
  - injection H as Hc H. subst c'.
    destruct (IH d2) as [Hd Ht].
    + intros a b E. apply (H1 (String c a) b). rewrite E. reflexivity.
    + intros a b E. apply (H2 (String c a) b). rewrite E. reflexivity.
    + exact H.
    + split; [rewrite Hd; reflexivity|exact Ht].
Qed.

Lemma generateSessionId_inj (now1 now2 : Z) (rnd1 rnd2 : string) :
  Utils.generateSessionId now1 rnd1 = Utils.generateSessionId now2 rnd2 ->
  now1 = now2 /\ substring 2 9 rnd1 = substring 2 9 rnd2.
Proof.
  unfold Utils.generateSessionId. intros H. cbn [String.append] in H.
  repeat (injection H as H).
  apply split_at_underscore in H; try apply string_of_Z_no_underscore.
  destruct H as [Hd Ht]. split; [apply string_of_Z_inj, Hd|exact Ht].
Qed.

(** C9, as stated, fails: [resetApplication] leaves the transcript of the
    page as it is. *)
Lemma resetApplication_keeps_transcript :
  State.transcript (App.resetApplication 1700000000000 "0.4fzyo82mvyr" chattingState)
  = State.transcript chattingState
  /\ State.transcript (App.resetApplication 1700000000000 "0.4fzyo82mvyr" chattingState)
     <> Some Chat.welcome
  /\ State.transcript (App.resetApplication 1700000000000 "0.4fzyo82mvyr" chattingState)
     <> Some [].
Proof. split; [reflexivity|]. split; discriminate. Qed.

(** C9, amended.  [resetApplication] sets the session id to a newly
    generated one, which is not the id of before when that one was
    generated at another reading of the clock; it unbinds the document,
    drops the extraction result and puts the filter back to [all].  It
    does not touch the chat: the transcript, the input and
    [Chat.isProcessing] are as before. *)
Theorem resetApplication_resets_session (now : Z) (rnd36 : string) (s : State.t) :
  let s' := App.resetApplication now rnd36 s in
  APP_STATE.currentSessionId (State.app s') = Some (Utils.generateSessionId now rnd36)
  /\ APP_STATE.currentDocId (State.app s') = None
  /\ APP_STATE.extractionData (State.app s') = None
  /\ APP_STATE.currentFilter (State.app s') = "all"
  /\ State.chatView s' = State.chatView s
  /\ State.transcript s' = State.transcript s
  /\ State.isProcessing s' = State.isProcessing s
  /\ State.trace s' = State.trace s ++ [Toasted "info" "Ready for new analysis"]
  /\ (forall now0 rnd0,
        APP_STATE.currentSessionId (State.app s)
        = Some (Utils.generateSessionId now0 rnd0) ->
        now0 <> now ->
        APP_STATE.currentSessionId (State.app s')
        <> APP_STATE.currentSessionId (State.app s)).
Proof.
  intros s'. do 8 (split; [reflexivity|]).
  intros now0 rnd0 H0 Hne. rewrite H0. intros E.
  change (Some (Utils.generateSessionId now rnd36)
          = Some (Utils.generateSessionId now0 rnd0)) in E.
  assert (E' : Utils.generateSessionId now rnd36 = Utils.generateSessionId now0 rnd0)
    by congruence.
  apply generateSessionId_inj in E'. destruct E' as [E' _]. congruence.
Qed.

(** ** The chat: validation *)

Lemma truthy_trim_empty (value : string) :
  JS.truthy (Some (JS.trim value)) = false <-> JS.trim value = "".
Proof.
  destruct (JS.trim value); cbn; split; intros H; try reflexivity; discriminate.
Qed.

Lemma sendMessage_empty_query (s : State.t) (value : string) (disabled : bool) :
  ChatView.chatInput (State.chatView s) = Some value ->
  ChatView.sendBtn (State.chatView s) = Some disabled ->
  JS.trim value = "" ->
  run Chat.sendMessage s = (Toast.error "Please enter a question" s, Returned tt).
Proof.
  intros Hi Hb Hq. unfold Chat.sendMessage. cbn [run]. rewrite Hi, Hb.
  cbv zeta. rewrite Hq. reflexivity.
Qed.

Lemma sendMessage_no_document (s : State.t) (value : string) (disabled : bool) :
  ChatView.chatInput (State.chatView s) = Some value ->
  ChatView.sendBtn (State.chatView s) = Some disabled ->
  JS.trim value <> "" ->
  JS.truthy (APP_STATE.currentDocId (State.app s)) = false ->
  run Chat.sendMessage s = (Toast.error "No document loaded" s, Returned tt).
Proof.
  intros Hi Hb Hq Hd. unfold Chat.sendMessage. cbn [run]. rewrite Hi, Hb.
  cbv zeta. destruct (JS.trim value) eqn:E; [congruence|].
  cbn [JS.truthy negb]. rewrite Hd. reflexivity.
Qed.

(** C8.  With the input and the send button on the page, [sendMessage]
    on a query that is empty once trimmed, or with no document bound (the
    id is [null], or falsy), shows an error toast and returns: nothing is
    requested, no turn is appended, [Chat.isProcessing] is not taken. *)
Theorem sendMessage_validation (s : State.t) (value : string) (disabled : bool) :
  ChatView.chatInput (State.chatView s) = Some value ->
  ChatView.sendBtn (State.chatView s) = Some disabled ->
  JS.trim value = "" \/ JS.truthy (APP_STATE.currentDocId (State.app s)) = false ->
  exists message,
    run Chat.sendMessage s = (State.record (Toasted "error" message) s, Returned tt)
    /\ (JS.trim value = "" -> message = "Please enter a question")
    /\ (JS.trim value <> "" -> message = "No document loaded")
    /\ State.transcript (fst (run Chat.sendMessage s)) = State.transcript s
    /\ fetchesOf (State.trace (fst (run Chat.sendMessage s))) = fetchesOf (State.trace s)
    /\ State.isProcessing (fst (run Chat.sendMessage s)) = State.isProcessing s.
Proof.
  intros Hi Hb Hbad.
  destruct (string_dec (JS.trim value) "") as [Hq|Hq].
  - exists "Please enter a question".
    rewrite (sendMessage_empty_query s value disabled Hi Hb Hq).
    split; [reflexivity|]. split; [reflexivity|]. split; [congruence|].
    split; [reflexivity|]. split; [|reflexivity].
    cbn [fst]. trace_simpl. rewrite fetchesOf_app. cbn. apply app_nil_r.
  - destruct Hbad as [Hbad|Hbad]; [congruence|].
    exists "No document loaded".
    rewrite (sendMessage_no_document s value disabled Hi Hb Hq Hbad).
    split; [reflexivity|]. split; [congruence|]. split; [reflexivity|].
    split; [reflexivity|]. split; [|reflexivity].
    cbn [fst]. trace_simpl. rewrite fetchesOf_app. cbn. apply app_nil_r.
Qed.

(** An instance of C8: a query of blanks on the sample page, which has no
    document either. *)
Lemma sendMessage_validation_witness :
  exists message,
    run Chat.sendMessage (Chat.set_chatInput (fun _ => "   ") sampleState)
    = (State.record (Toasted "error" message)
         (Chat.set_chatInput (fun _ => "   ") sampleState), Returned tt)
    /\ message = "Please enter a question".
Proof.
  destruct (sendMessage_validation (Chat.set_chatInput (fun _ => "   ") sampleState)
              "   " false eq_refl eq_refl (or_introl eq_refl))
    as (message & Hrun & Hmsg & _).
  exists message. split; [exact Hrun|]. apply Hmsg. reflexivity.
Defined.

(** ** The chat: clearing *)

(** C6.  With a session id, [clearChat] first issues the request that
    deletes the session on the server, and up to there changes nothing on
    the page.  When the request succeeds, the transcript is replaced by the
    welcome block and a success toast is shown.  When it fails, by
    rejection or by a response that is not ok, the page is exactly as it
    was when the answer came, transcript included, and an error toast is
    shown. *)
Theorem clearChat_remote_first (s : State.t) (sid : string) :
  APP_STATE.currentSessionId (State.app s) = Some sid ->
  JS.truthy (Some sid) = true ->
  exists k,
    run Chat.clearChat s
    = (State.record (Requested (FetchClearSession sid)) s,
       Suspended (FetchClearSession sid) k)
    /\ (forall (s2 : State.t) (body : unit),
          run (k (HttpSuccess body)) s2
          = (Toast.success "Chat cleared"
               (Chat.set_chatMessages (fun _ => Chat.welcome) s2), Returned tt)
          /\ State.transcript (fst (run (k (HttpSuccess body)) s2))
             = option_map (fun _ => Chat.welcome) (State.transcript s2))
    /\ (forall (s2 : State.t) (r : fetch_result unit),
          failed r ->
          run (k r) s2 = (State.record (Toasted "error" "Failed to clear chat") s2,
                          Returned tt)
          /\ State.doc (fst (run (k r) s2)) = State.doc s2
          /\ State.transcript (fst (run (k r) s2)) = State.transcript s2).
Proof.
  intros Hsid Ht. destruct sid as [|c t]; [discriminate|].
  unfold Chat.clearChat. cbn [run]. rewrite Hsid.
  unfold API.clearChatSession, await. cbn [bind try_catch run].
  eexists. split; [reflexivity|].
  split.
  - intros s2 body. split; reflexivity.
  - intros s2 [m|d|body] Hr; [| |destruct Hr]; repeat split.
Qed.

(** An instance of C6: clearing the sample conversation, the server
    answering with an error status. *)
Lemma clearChat_remote_first_witness :
  exists k,
    run Chat.clearChat chattingState
    = (State.record (Requested (FetchClearSession "session_1_abc")) chattingState,
       Suspended (FetchClearSession "session_1_abc") k)
    /\ State.transcript (fst (run (k (HttpFailure None)) chattingState))
       = State.transcript chattingState
    /\ State.transcript (fst (run (k (HttpSuccess tt)) chattingState))
       = Some Chat.welcome.
Proof.
  destruct (clearChat_remote_first chattingState "session_1_abc" eq_refl eq_refl)
    as (k & Hrun & Hok & Hfail).
  exists k. split; [exact Hrun|]. split.
  - exact (proj2 (proj2 (Hfail chattingState (HttpFailure None) I))).
  - rewrite (proj2 (Hok chattingState tt)). reflexivity.
Defined.

(** ** The chat: one request at a time *)

Lemma quiet_bind {A B : Type} (p : prog A) (f : A -> prog B) :
  quiet p -> (forall a, quiet (f a)) -> quiet (bind p f).
Proof.
  intros Hp Hf. induction Hp; cbn [bind]; try (constructor; auto); auto.
Qed.

Lemma quiet_try_catch {A : Type} (p : prog A) (h : string -> prog A) :
  quiet p -> (forall m, quiet (h m)) -> quiet (try_catch p h).
Proof.
  intros Hp Hh. induction Hp; cbn [try_catch]; try (constructor; auto); auto.
Qed.

Lemma quiet_call (f : State.t -> State.t) :
  (forall s, State.isProcessing (f s) = State.isProcessing s) -> quiet (call f).
Proof. intros H. constructor; [exact H|constructor]. Qed.

Lemma isProcessing_render (data : Extraction.t) (s : State.t) :
  State.isProcessing (Dashboard.render data s) = State.isProcessing s.
Proof.
  unfold Dashboard.render, Dashboard.renderClausesList.
  destruct (DashboardView.clausesList _); reflexivity.
Qed.

(** Closes the side conditions of [quiet] for the programs of the
    controller. *)
Ltac quiet_tac :=
  repeat first
    [ apply quiet_bind; [|intros ?]
    | apply quiet_try_catch; [|intros ?]
    | apply quiet_call; intros ?; first [reflexivity | apply isProcessing_render]
    | apply quiet_Await; [reflexivity|intros ?]
    | apply quiet_Ret
    | apply quiet_Throw ].

Lemma quiet_settle {A : Type} (fallback : string) (r : fetch_result A) :
  quiet (API.settle fallback r).
Proof. destruct r; constructor. Qed.

Lemma quiet_handleFileUpload (file : File.t) : quiet (App.handleFileUpload file).
Proof.
  unfold App.handleFileUpload.
  destruct (App.validateFile file); [quiet_tac|].
  unfold App.pipeline, App.pipelineFailed, API.uploadFile, API.extractClauses,
    App.delay, await.
  quiet_tac; apply quiet_settle.
Qed.

Lemma quiet_clearChat : quiet Chat.clearChat.
Proof.
  unfold Chat.clearChat. constructor. intros s.
  destruct (APP_STATE.currentSessionId (State.app s)) as [[|c t]|];
    [apply quiet_Ret| |apply quiet_Ret].
  unfold API.clearChatSession, await.
  apply quiet_try_catch; [|intros m; quiet_tac].
  apply quiet_bind; [|intros u; quiet_tac].
  apply quiet_bind; [quiet_tac|].
  intros r; destruct r; constructor.
Qed.

Lemma quiet_run {A : Type} (p : prog A) (s : State.t) :
  quiet p ->
  match run p s with
  | (s', Suspended req k) =>
      State.isProcessing s' = State.isProcessing s
      /\ is_chat_fetch req = false /\ (forall r, quiet (k r))
  | (s', _) => State.isProcessing s' = State.isProcessing s
  end.
Proof.
  intros Hp. revert s. induction Hp as [a|m|k Hk IH|f k Hf Hk IH|R req k Hreq Hk IH];
    intros s; cbn [run].
  - reflexivity.
  - reflexivity.
  - apply IH.
  - specialize (IH (f s)). destruct (run k (f s)) as [s' [a|m|R req k']];
      rewrite <- (Hf s); exact IH.
  - repeat split; assumption.
Qed.

Lemma sending_sendMessage : sending Chat.sendMessage.
Proof.
  intros s. unfold Chat.sendMessage. cbn [run].
  destruct (ChatView.chatInput (State.chatView s)) as [value|]; [|reflexivity].
  destruct (ChatView.sendBtn (State.chatView s)) as [b|]; [|reflexivity].
  cbv zeta. destruct (JS.truthy (Some (JS.trim value))); cbn [negb]; [|reflexivity].
  destruct (JS.truthy (APP_STATE.currentDocId (State.app s))); cbn [negb]; [|reflexivity].
  destruct (State.isProcessing s) eqn:Ep; [cbn; exact Ep|].
  unfold Chat.addTypingIndicator, Chat.exchange, API.sendChatMessage, await.
  cbn [bind run call finally try_catch].
  destruct (State.transcript _); cbn [bind run];
    (repeat split; intros r s2;
     unfold Chat.exchangeFailed, Chat.release, call;
     destruct r as [m|d|body]; cbn [API.settle bind try_catch finally run];
     eexists; split; reflexivity).
Qed.

Lemma sending_suggested (text : string) :
  sending (EventLoop.listener (EventLoop.SuggestedQuestion text)).
Proof.
  intros s. cbn [EventLoop.listener run].
  destruct (ChatView.chatInput (State.chatView s)); [|reflexivity].
  cbn [call bind run].
  exact (sending_sendMessage (Chat.set_chatInput (fun _ => text) s)).
Qed.

(** The invariant of the event loop. *)
Ltac inflight_simpl :=
  unfold single_flight, EventLoop.inflight in *;
  cbn [EventLoop.state EventLoop.pending] in *;
  rewrite ?filter_app, ?length_app in *;
  cbn [filter EventLoop.is_chat_task] in *.

Lemma start_quiet (p : prog unit) (sys : EventLoop.system) :
  quiet p ->
  single_flight sys /\ Forall task_ok (EventLoop.pending sys) ->
  single_flight (EventLoop.start p sys)
  /\ Forall task_ok (EventLoop.pending (EventLoop.start p sys)).
Proof.
  intros Hq [Hs Hok]. destruct sys as [s pending]. unfold EventLoop.start.
  cbn [EventLoop.state EventLoop.pending] in *.
  pose proof (quiet_run p s Hq) as Hrun.
  destruct (run p s) as [s' [a|m|R req k]].
  - inflight_simpl. rewrite Hrun. auto.
  - inflight_simpl. rewrite Hrun. auto.
  - destruct Hrun as (Hp & Hreq & Hk). split.
    + inflight_simpl. rewrite Hreq, Hp, Hs. cbn. lia.
    + apply Forall_app. split; [exact Hok|].
      constructor; [|constructor]. unfold task_ok. rewrite Hreq. exact Hk.
Qed.

Lemma start_sending (p : prog unit) (sys : EventLoop.system) :
  sending p ->
  single_flight sys /\ Forall task_ok (EventLoop.pending sys) ->
  single_flight (EventLoop.start p sys)
  /\ Forall task_ok (EventLoop.pending (EventLoop.start p sys)).
Proof.
  intros Hsend [Hs Hok]. destruct sys as [s pending]. unfold EventLoop.start.
  cbn [EventLoop.state EventLoop.pending] in *.
  specialize (Hsend s).
  destruct (run p s) as [s' [a|m|R req k]].
  - inflight_simpl. rewrite Hsend. auto.
  - destruct Hsend.
  - destruct Hsend as (Hp & Hp' & Hreq & Hk). split.
    + inflight_simpl. rewrite Hreq, Hp', Hs, Hp. reflexivity.
    + apply Forall_app. split; [exact Hok|].
      constructor; [|constructor]. unfold task_ok. rewrite Hreq. exact Hk.
Qed.

Lemma quiet_handleExport : quiet App.handleExport.
Proof.
  unfold App.handleExport. constructor. intros s.
  destruct (APP_STATE.currentDocId (State.app s)) as [[|c t]|];
    [quiet_tac| |quiet_tac].
  unfold API.exportToExcel, await.
  apply quiet_try_catch; [|intros m; quiet_tac].
  apply quiet_bind; [quiet_tac|intros u].
  apply quiet_bind; [|intros b; quiet_tac].
  apply quiet_bind; [quiet_tac|].
  intros r; destruct r; constructor.
Qed.

Lemma quiet_checkBackendHealth : quiet App.checkBackendHealth.
Proof.
  unfold App.checkBackendHealth, API.healthCheck, await.
  apply quiet_bind.
  - apply quiet_bind; [quiet_tac|]. intros r; destruct r; constructor.
  - intros [|]; quiet_tac.
Qed.

Lemma quiet_listener (a : EventLoop.action) :
  quiet (EventLoop.listener a) \/ sending (EventLoop.listener a).
Proof.
  destruct a as [file|now rnd36|filter|text| |text| | | ]; cbn [EventLoop.listener].
  - left. apply quiet_handleFileUpload.
  - left. apply quiet_call. reflexivity.
  - left. apply quiet_call. reflexivity.
  - left. apply quiet_call. reflexivity.
  - right. apply sending_sendMessage.
  - right. apply sending_suggested.
  - left. apply quiet_clearChat.
  - left. apply quiet_call. reflexivity.
  - left. apply quiet_handleExport.
Qed.

Lemma step_single_flight (sys sys' : EventLoop.system) :
  EventLoop.step sys sys' ->
  single_flight sys /\ Forall task_ok (EventLoop.pending sys) ->
  single_flight sys' /\ Forall task_ok (EventLoop.pending sys').
Proof.
  intros Hstep Hinv. destruct Hstep as [a sys|R req k r before after s].
  - destruct (quiet_listener a) as [H|H];
      [apply start_quiet|apply start_sending]; assumption.
  - destruct Hinv as [Hs Hok]. cbn [EventLoop.pending] in Hok.
    apply Forall_app in Hok. destruct Hok as [Hb Hok].
    inversion Hok as [|? ? Ht Ha]; subst. clear Hok.
    assert (Hrest : Forall task_ok (before ++ after))
      by (apply Forall_app; split; assumption).
    unfold task_ok in Ht. destruct (is_chat_fetch req) eqn:Hreq.
    + destruct (Ht r s) as (s' & Hrun & Hp').
      unfold EventLoop.start. cbn [EventLoop.state EventLoop.pending].
      rewrite Hrun. split; [|exact Hrest].
      inflight_simpl. rewrite Hreq in Hs. cbn [Datatypes.length] in Hs. rewrite Hp'.
      destruct (State.isProcessing s); lia.
    + apply start_quiet; [apply Ht|]. split; [|exact Hrest].
      inflight_simpl. rewrite Hreq in Hs. exact Hs.
Qed.

Lemma reachable_single_flight (sys : EventLoop.system) :
  EventLoop.reachable sys ->
  single_flight sys /\ Forall task_ok (EventLoop.pending sys).
Proof.
  intros H. induction H as [now rnd36 page|sys sys' _ IH Hstep].
  - pose proof (start_quiet App.checkBackendHealth
        (EventLoop.System (State.Build APP_STATE.initial page false false []) [])
        quiet_checkBackendHealth) as H.
    destruct H as [Hs Hok].
    + split; [reflexivity|constructor].
    + unfold EventLoop.loaded. split; [exact Hs|exact Hok].
  - exact (step_single_flight sys sys' Hstep IH).
Qed.

Lemma sendMessage_busy (s : State.t) :
  State.isProcessing s = true ->
  exists s',
    run Chat.sendMessage s = (s', Returned tt)
    /\ State.doc s' = State.doc s
    /\ State.app s' = State.app s
    /\ State.isProcessing s' = true
    /\ fetchesOf (State.trace s') = fetchesOf (State.trace s).
Proof.
  intros Hp. unfold Chat.sendMessage. cbn [run].
  destruct (ChatView.chatInput (State.chatView s)) as [value|];
    [|exists s; repeat split; exact Hp].
  destruct (ChatView.sendBtn (State.chatView s)) as [b|];
    [|exists s; repeat split; exact Hp].
  cbv zeta. destruct (JS.truthy (Some (JS.trim value))); cbn [negb].
  - destruct (JS.truthy (APP_STATE.currentDocId (State.app s))); cbn [negb].
    + rewrite Hp. exists s. repeat split; exact Hp.
    + eexists. split; [reflexivity|]. repeat split; try exact Hp.
      trace_simpl. rewrite fetchesOf_app. apply app_nil_r.
  - eexists. split; [reflexivity|]. repeat split; try exact Hp.
    trace_simpl. rewrite fetchesOf_app. apply app_nil_r.
Qed.

Lemma sendMessage_accepted (s : State.t) (value : string) (disabled : bool) :
  ChatView.chatInput (State.chatView s) = Some value ->
  ChatView.sendBtn (State.chatView s) = Some disabled ->
  JS.trim value <> "" ->
  JS.truthy (APP_STATE.currentDocId (State.app s)) = true ->
  State.isProcessing s = false ->
  exists s1 k,
    run Chat.sendMessage s
    = (s1, Suspended (FetchChat (APP_STATE.currentSessionId (State.app s))
                        (APP_STATE.currentDocId (State.app s)) (JS.trim value)) k)
    /\ State.isProcessing s1 = true
    /\ fetchesOf (State.trace s1) = fetchesOf (State.trace s) ++ ["chat"]
    /\ (forall (r : fetch_result ChatReply.t) (s2 : State.t),
          exists s3,
            run (k r) s2 = (s3, Returned tt)
            /\ State.isProcessing s3 = false
            /\ State.app s3 = State.app s2
            /\ ChatView.chatInput (State.chatView s3)
               = ChatView.chatInput (State.chatView s2)
            /\ ChatView.sendBtn (State.chatView s3)
               = option_map (fun _ => false) (ChatView.sendBtn (State.chatView s2))
            /\ fetchesOf (State.trace s3) = fetchesOf (State.trace s2)).
Proof.
  intros Hi Hb Hq Hd Hp. unfold Chat.sendMessage. cbn [run]. rewrite Hi, Hb.
  cbv zeta. destruct (JS.trim value) as [|c q] eqn:Eq; [congruence|].
  cbn [JS.truthy negb]. rewrite Hd, Hp. cbn [negb].
  unfold Chat.addTypingIndicator, Chat.exchange, API.sendChatMessage, await.
  cbn [bind run call finally try_catch].
  destruct (State.transcript _); cbn [bind run];
    (eexists; eexists; split; [reflexivity|]; split; [reflexivity|]; split;
     [trace_simpl; rewrite ?fetchesOf_app; reflexivity|];
     intros r s2; unfold Chat.exchangeFailed, Chat.release, call;
     destruct r as [m|d|body]; cbn [API.settle bind try_catch finally run];
     eexists; (split; [reflexivity|]); repeat split;
     trace_simpl; rewrite ?fetchesOf_app; cbn [fetchesOf flat_map app];
     rewrite ?app_nil_r; reflexivity).
Qed.

(** C5.  While [Chat.isProcessing] is true, a call of [sendMessage]
    returns at once: it issues no request, suspends on nothing (so nothing
    is queued behind the outstanding call), and leaves the page, the
    transcript and the flag as they are.  A call with a query and a
    document, made while the flag is false, takes the flag and issues one
    chat request; whatever the answer to it (a reply, a response that is
    not ok, a rejection), the resumed call runs to its end and leaves the
    flag false and the send button enabled, so that a later call is
    accepted in the same way.  In every state the page can reach, the flag
    is true exactly when one chat request is outstanding, and there is
    never more than one. *)
Theorem sendMessage_single_flight :
  (forall s : State.t,
     State.isProcessing s = true ->
     exists s',
       run Chat.sendMessage s = (s', Returned tt)
       /\ State.doc s' = State.doc s
       /\ State.app s' = State.app s
       /\ State.isProcessing s' = true
       /\ fetchesOf (State.trace s') = fetchesOf (State.trace s))
  /\ (forall (s : State.t) (value : string) (disabled : bool),
        ChatView.chatInput (State.chatView s) = Some value ->
        ChatView.sendBtn (State.chatView s) = Some disabled ->
        JS.trim value <> "" ->
        JS.truthy (APP_STATE.currentDocId (State.app s)) = true ->
        State.isProcessing s = false ->
        exists s1 k,
          run Chat.sendMessage s
          = (s1, Suspended (FetchChat (APP_STATE.currentSessionId (State.app s))
                              (APP_STATE.currentDocId (State.app s)) (JS.trim value)) k)
          /\ State.isProcessing s1 = true
          /\ fetchesOf (State.trace s1) = fetchesOf (State.trace s) ++ ["chat"]
          /\ (forall (r : fetch_result ChatReply.t) (s2 : State.t),
                exists s3,
                  run (k r) s2 = (s3, Returned tt)
                  /\ State.isProcessing s3 = false
                  /\ State.app s3 = State.app s2
                  /\ ChatView.chatInput (State.chatView s3)
                     = ChatView.chatInput (State.chatView s2)
                  /\ ChatView.sendBtn (State.chatView s3)
                     = option_map (fun _ => false) (ChatView.sendBtn (State.chatView s2))
                  /\ fetchesOf (State.trace s3) = fetchesOf (State.trace s2)))
  /\ (forall sys : EventLoop.system,
        State.isProcessing (EventLoop.state sys) = true ->
        EventLoop.pending (EventLoop.start Chat.sendMessage sys) = EventLoop.pending sys)
  /\ (forall sys : EventLoop.system,
        EventLoop.reachable sys ->
        (State.isProcessing (EventLoop.state sys) = true <-> EventLoop.inflight sys = 1%nat)
        /\ (EventLoop.inflight sys <= 1)%nat).
Proof.
  split; [exact sendMessage_busy|].
  split; [exact sendMessage_accepted|].
  split.
  { intros sys Hp. destruct (sendMessage_busy (EventLoop.state sys) Hp) as (s' & Hrun & _).
    unfold EventLoop.start. rewrite Hrun. reflexivity. }
  intros sys Hr. destruct (reachable_single_flight sys Hr) as [Hs _].
  unfold single_flight in Hs. rewrite Hs.
  destruct (State.isProcessing (EventLoop.state sys)); repeat split; auto; discriminate.
Qed.

(** A run of the event loop from the load of the page, on the scenario
    of the specification: the health check is answered, [msa.pdf] goes
    through the pipeline, the dashboard shows aggregate HIGH and the
    clauses in the order HIGH, MEDIUM, NOT_FOUND; then a question is sent;
    a suggested question clicked while it is outstanding issues nothing;
    the chat end point answers with an error; the next suggested question
    is sent. *)
Example end_to_end_scenario :
  let sys0 := EventLoop.loaded 1700000000000 "0.4fzyo82mvyr" samplePage in
  let sys1 := EventLoop.answer_first sampleEnv sys0 in
  let sys2 := EventLoop.start (EventLoop.listener (EventLoop.PickFile sampleFile)) sys1 in
  let sys3 := EventLoop.answer_next sampleEnv 6 sys2 in
  let sys4 := EventLoop.start (EventLoop.listener (EventLoop.TypeQuery "Is there a cap?"))
                sys3 in
  let sys5 := EventLoop.start (EventLoop.listener EventLoop.Send) sys4 in
  let sys6 := EventLoop.start
                (EventLoop.listener
                   (EventLoop.SuggestedQuestion "What are the high-risk clauses?")) sys5 in
  let sys7 := EventLoop.answer_first failingEnv sys6 in
  let sys8 := EventLoop.start
                (EventLoop.listener
                   (EventLoop.SuggestedQuestion "Is there a liability cap?")) sys7 in
  EventLoop.pending sys3 = []
  /\ Page.activeSection (Document.page (State.doc (EventLoop.state sys3)))
     = Some "dashboard-section"
  /\ APP_STATE.currentDocId (State.app (EventLoop.state sys3)) = Some "d1"
  /\ map fst (stepsOf (State.trace (EventLoop.state sys3))) = [0; 1; 2; 3; 4; 5]
  /\ DashboardView.overallRiskLevel (State.dashboardView (EventLoop.state sys3))
     = Some ("HIGH", "#ef4444")
  /\ map Clause.risk_level (Dashboard.visibleClauses (EventLoop.state sys3))
     = ["HIGH"; "MEDIUM"; "NOT_FOUND"]
  /\ EventLoop.inflight sys5 = 1%nat
  /\ fetchesOf (State.trace (EventLoop.state sys6))
     = ["health"; "upload"; "extract"; "chat"]
  /\ EventLoop.inflight sys6 = 1%nat
  /\ State.isProcessing (EventLoop.state sys7) = false
  /\ EventLoop.inflight sys7 = 0%nat
  /\ fetchesOf (State.trace (EventLoop.state sys8))
     = ["health"; "upload"; "extract"; "chat"; "chat"]
  /\ EventLoop.inflight sys8 = 1%nat.
Proof. vm_compute. repeat split. Qed.

(** ** The stable order is unique *)

Lemma rank_level (a b : Clause.t) :
  knownLevel a -> knownLevel b -> rank a = rank b ->
  Clause.risk_level a = Clause.risk_level b.
Proof.
  unfold knownLevel, riskLevels, rank. cbn [In].
  intros [Ha|[Ha|[Ha|[Ha|[]]]]] [Hb|[Hb|[Hb|[Hb|[]]]]];
    rewrite <- Ha, <- Hb; cbn; intros H; try reflexivity; discriminate.
Qed.

Lemma hasLevel_own (c : Clause.t) : hasLevel (Clause.risk_level c) c = true.
Proof. apply String.eqb_refl. Qed.

Lemma filter_nil_head (l : list Clause.t) :
  (forall level, filter (hasLevel level) l = []) -> l = [].
Proof.
  destruct l as [|y l]; [reflexivity|]. intros H.
  specialize (H (Clause.risk_level y)). cbn [filter] in H.
  rewrite hasLevel_own in H. discriminate.
Qed.

Lemma ranked_head_le (x : Clause.t) (l : list Clause.t) (y : Clause.t) :
  ranked rank (x :: l) -> In y (x :: l) -> rank x <= rank y.
Proof.
  intros Hs [<-|Hy]; [lia|]. inversion Hs as [|? ? _ Hx]; subst.
  rewrite Forall_forall in Hx. exact (Hx y Hy).
Qed.

(** Two lists of known levels that are both in rank order and agree,
    level by level, on the clauses of that level in their order, are
    equal. *)
Lemma ranked_stable_unique (l1 l2 : list Clause.t) :
  Forall knownLevel l1 -> Forall knownLevel l2 ->
  ranked rank l1 -> ranked rank l2 ->
  (forall level, filter (hasLevel level) l1 = filter (hasLevel level) l2) ->
  l1 = l2.
Proof.
  revert l2. induction l1 as [|x l1 IH]; intros l2 Hk1 Hk2 Hs1 Hs2 Hf.
  - symmetry. apply filter_nil_head. intros level. symmetry. apply Hf.
  - destruct l2 as [|y l2].
    + apply filter_nil_head. exact Hf.
    + inversion Hk1 as [|? ? Kx Hk1']; inversion Hk2 as [|? ? Ky Hk2']; subst.
      assert (Hxy : rank x <= rank y).
      { apply (ranked_head_le x l1 y Hs1).
        apply (proj1 (filter_In (hasLevel (Clause.risk_level y)) y (x :: l1))).
        rewrite (Hf (Clause.risk_level y)). apply filter_In.
        split; [left; reflexivity|apply hasLevel_own]. }
      assert (Hyx : rank y <= rank x).
      { apply (ranked_head_le y l2 x Hs2).
        apply (proj1 (filter_In (hasLevel (Clause.risk_level x)) x (y :: l2))).
        rewrite <- (Hf (Clause.risk_level x)). apply filter_In.
        split; [left; reflexivity|apply hasLevel_own]. }
      assert (Hl : Clause.risk_level x = Clause.risk_level y)
        by (apply rank_level; [assumption|assumption|lia]).
      pose proof (Hf (Clause.risk_level x)) as Hfx. cbn [filter] in Hfx.
      rewrite hasLevel_own in Hfx. rewrite Hl in Hfx at 2.
      rewrite hasLevel_own in Hfx. injection Hfx as Hxy' Hfx.
      subst y. f_equal.
      inversion Hs1; inversion Hs2; subst.
      apply IH; try assumption.
      intros level. specialize (Hf level). cbn [filter] in Hf.
      destruct (hasLevel level x); [injection Hf as Hf|]; exact Hf.
Qed.

(** Whatever stable sort an engine implements, on clauses of known levels
    it returns [Dashboard.sortedClauses]. *)
Lemma stable_sort_unique (clauses sorted : list Clause.t) :
  Forall knownLevel clauses -> Forall knownLevel sorted ->
  ranked rank sorted ->
  (forall level, filter (hasLevel level) sorted = filter (hasLevel level) clauses) ->
  sorted = Dashboard.sortedClauses clauses.
Proof.
  intros Hk Hk' Hs Hf. apply ranked_stable_unique; try assumption.
  - apply sortedClauses_known. exact Hk.
  - apply sortedClauses_ranked. exact Hk.
  - intros level. rewrite Hf. symmetry.
    apply (filter_sort rank _ knownLevel compareClauses_rank); [|exact Hk].
    apply hasLevel_rank.
Qed.

(* ===================================================================== *)
(** * Further properties of the code *)
(* ===================================================================== *)

(** ** Text on display *)

Lemma string_length_append (a b : string) :
  String.length (a ++ b)%string = (String.length a + String.length b)%nat.
Proof. induction a as [|c a IH]; cbn; [reflexivity|]. rewrite IH. reflexivity. Qed.

Lemma string_length_prefix (n : nat) (s : string) :
  String.length (substring 0 n s) = Nat.min n (String.length s).
Proof.
  revert s. induction n as [|n IH]; intros s.
  - destruct s; reflexivity.
  - destruct s as [|c s]; cbn; [reflexivity|]. rewrite IH. reflexivity.
Qed.

Lemma substring_prefix_append (n : nat) (s t : string) :
  (n <= String.length s)%nat -> substring 0 n (s ++ t)%string = substring 0 n s.
Proof.
  revert s. induction n as [|n IH]; intros s H.
  - destruct s; cbn; [destruct t|]; reflexivity.
  - destruct s as [|c s]; cbn in *; [lia|]. rewrite IH; [reflexivity|lia].
Qed.

Lemma substring_prefix_idem (n : nat) (s : string) :
  substring 0 n (substring 0 n s) = substring 0 n s.
Proof.
  revert s. induction n as [|n IH]; intros s.
  - destruct s; reflexivity.
  - destruct s as [|c s]; cbn; [reflexivity|]. rewrite IH. reflexivity.
Qed.

Lemma substring_all (s : string) : substring 0 (String.length s) s = s.
Proof. induction s as [|c s IH]; cbn; [reflexivity|]. rewrite IH. reflexivity. Qed.

Lemma truncateText_length (text : string) (maxLength : nat) :
  (String.length (Utils.truncateText text maxLength) <= maxLength + 3)%nat.
Proof.
  unfold Utils.truncateText.
  destruct (Nat.leb_spec (String.length text) maxLength) as [H|H]; [lia|].
  rewrite string_length_append, string_length_prefix. cbn. lia.
Qed.

(** X1.  [Utils.truncateText] never returns more than [maxLength + 3]
    code units.  A text within the budget comes back as it is; a longer
    one comes back as its first [maxLength] code units followed by three
    dots, so that the part of the result within the budget is always the
    beginning of the text. *)
Theorem truncateText_bounds (text : string) (maxLength : nat) :
  (String.length (Utils.truncateText text maxLength) <= maxLength + 3)%nat
  /\ ((String.length text <= maxLength)%nat -> Utils.truncateText text maxLength = text)
  /\ ((maxLength < String.length text)%nat ->
        String.length (Utils.truncateText text maxLength) = (maxLength + 3)%nat
        /\ Utils.truncateText text maxLength
           = (substring 0 maxLength text ++ "...")%string)
  /\ substring 0 maxLength (Utils.truncateText text maxLength)
     = substring 0 maxLength text.
Proof.
  split; [apply truncateText_length|].
  unfold Utils.truncateText.
  destruct (Nat.leb_spec (String.length text) maxLength) as [H|H].
  - split; [reflexivity|]. split; [lia|reflexivity].
  - split; [lia|]. split.
    + intros _. split; [|reflexivity].
      rewrite string_length_append, string_length_prefix. cbn. lia.
    + rewrite substring_prefix_append; [apply substring_prefix_idem|].
      rewrite string_length_prefix. lia.
Qed.

(** ** Rendered clauses *)

(** X2.  [createClauseElement] writes an item that is visible, keeps the
    clause it was written from, and shows at most 203 code units of text:
    the text of a clause that was not found, or has no text, is the fixed
    notice, whatever the clause carries.  The badge class follows the
    level, every level outside HIGH, MEDIUM and LOW getting the class of
    NOT_FOUND. *)
Theorem createClauseElement_display (c : Clause.t) :
  let item := Dashboard.createClauseElement c in
  ClauseItem.clause item = c
  /\ ClauseItem.hidden item = false
  /\ ClauseItem.riskLevel item = JS.toLowerCase (Clause.risk_level c)
  /\ (String.length (ClauseItem.clauseText item) <= 203)%nat
  /\ (Clause.found c = false ->
        ClauseItem.clauseText item = "Clause not found in contract")
  /\ (Clause.extracted_text c = None \/ Clause.extracted_text c = Some "" ->
        ClauseItem.clauseText item = "Clause not found in contract")
  /\ (forall text, Clause.found c = true -> Clause.extracted_text c = Some text ->
        text <> "" -> ClauseItem.clauseText item = Utils.truncateText text 200)
  /\ (Clause.risk_level c = "HIGH" -> ClauseItem.riskBadgeClass item = "risk-high")
  /\ (Clause.risk_level c = "MEDIUM" -> ClauseItem.riskBadgeClass item = "risk-medium")
  /\ (Clause.risk_level c = "LOW" -> ClauseItem.riskBadgeClass item = "risk-low")
  /\ (Clause.risk_level c <> "HIGH" -> Clause.risk_level c <> "MEDIUM" ->
      Clause.risk_level c <> "LOW" -> ClauseItem.riskBadgeClass item = "risk-not-found").
Proof.
  intros item. subst item. unfold Dashboard.createClauseElement.
  cbn [ClauseItem.clause ClauseItem.hidden ClauseItem.riskLevel ClauseItem.clauseText
       ClauseItem.riskBadgeClass].
  do 3 (split; [reflexivity|]).
  split.
  { destruct (Clause.extracted_text c) as [[|a t]|]; [cbn; lia| |cbn; lia].
    destruct (Clause.found c); [|cbn; lia].
    pose proof (truncateText_length (String a t) 200). lia. }
  split.
  { intros ->. destruct (Clause.extracted_text c) as [[|a t]|]; reflexivity. }
  split.
  { intros [->| ->]; reflexivity. }
  split.
  { intros text -> -> Ht. destruct text; [congruence|reflexivity]. }
  split; [intros ->; reflexivity|].
  split; [intros ->; reflexivity|].
  split; [intros ->; reflexivity|].
  intros H1 H2 H3.
  destruct (String.eqb_spec (Clause.risk_level c) "HIGH"); [congruence|].
  destruct (String.eqb_spec (Clause.risk_level c) "MEDIUM"); [congruence|].
  destruct (String.eqb_spec (Clause.risk_level c) "LOW"); [congruence|].
  reflexivity.
Qed.

(** ** The text of a message *)

Lemma string_append_assoc (a b c : string) :
  ((a ++ b) ++ c = a ++ (b ++ c))%string.
Proof. induction a as [|x a IH]; [reflexivity|]. cbn. rewrite IH. reflexivity. Qed.

Lemma replace_newlines_app (r a b : string) :
  JS.replace_newlines r (a ++ b)
  = (JS.replace_newlines r a ++ JS.replace_newlines r b)%string.
Proof.
  induction a as [|c a IH]; [reflexivity|]. cbn [String.append JS.replace_newlines].
  destruct (N_of_ascii c =? 10)%N.
  - rewrite IH, string_append_assoc. reflexivity.
  - rewrite IH. reflexivity.
Qed.

Lemma formatMessageText_counts (text : string) :
  hasNewline (Chat.formatMessageText text) = false
  /\ String.length (Chat.formatMessageText text)
     = (String.length text + 3 * countNewlines text)%nat
  /\ (hasNewline text = false -> Chat.formatMessageText text = text).
Proof.
  unfold Chat.formatMessageText.
  induction text as [|c text (IH1 & IH2 & IH3)]; [repeat split|].
  cbn [JS.replace_newlines hasNewline countNewlines String.length].
  destruct (N_of_ascii c =? 10)%N eqn:E.
  - split; [exact IH1|]. split; [cbn; rewrite IH2; lia|]. discriminate.
  - cbn [hasNewline String.length orb]. rewrite E. cbn [orb].
    split; [exact IH1|]. split; [rewrite IH2; lia|].
    intros H. rewrite (IH3 H). reflexivity.
Qed.

(** X3.  [Chat.formatMessageText] replaces every line feed of the text by
    the break tag [<br>] and keeps every other code unit, in order: a text
    without line feed is returned as it is, and a text made of [a], a
    line feed and [b] gives what [a] gives, then [<br>], then what [b]
    gives; these two facts fix the result for every text.  So the result
    has no line feed, and is three code units longer per line feed of the
    text. *)
Theorem formatMessageText_no_newline (text : string) :
  hasNewline (Chat.formatMessageText text) = false
  /\ String.length (Chat.formatMessageText text)
     = (String.length text + 3 * countNewlines text)%nat
  /\ (hasNewline text = false -> Chat.formatMessageText text = text)
  /\ (forall a b : string,
        text = (a ++ String "010"%char b)%string ->
        Chat.formatMessageText text
        = (Chat.formatMessageText a ++ "<br>" ++ Chat.formatMessageText b)%string)
  /\ (forall a b : string,
        text = (a ++ b)%string ->
        Chat.formatMessageText text
        = (Chat.formatMessageText a ++ Chat.formatMessageText b)%string).
Proof.
  destruct (formatMessageText_counts text) as (H1 & H2 & H3).
  split; [exact H1|]. split; [exact H2|]. split; [exact H3|].
  unfold Chat.formatMessageText. split.
  - intros a b ->. rewrite replace_newlines_app. reflexivity.
  - intros a b ->. apply replace_newlines_app.
Qed.

(** ** Clauses of levels outside the table *)

Lemma order_of_unknown (level : string) :
  ~ In level riskLevels -> Dashboard.order_of level = None.
Proof.
  unfold riskLevels, Dashboard.order_of, Dashboard.order. cbn [In Dashboard.order_of_in].
  intros H.
  destruct (String.eqb_spec "HIGH" level); [tauto|].
  destruct (String.eqb_spec "MEDIUM" level); [tauto|].
  destruct (String.eqb_spec "LOW" level); [tauto|].
  destruct (String.eqb_spec "NOT_FOUND" level); [tauto|].
  reflexivity.
Qed.

Lemma insert_unknown (x : Clause.t) (l : list Clause.t) :
  ~ knownLevel x -> ArraySort.insert Dashboard.compareClauses x l = x :: l.
Proof.
  intros H. destruct l as [|y l]; [reflexivity|]. cbn [ArraySort.insert].
  unfold Dashboard.compareClauses. rewrite (order_of_unknown _ H). reflexivity.
Qed.

(** X4.  When no clause has a level of the [order] table, every
    comparison of the sort is NaN, which counts as equal: the list is
    displayed in the order it came in. *)
Theorem sortedClauses_unknown_levels (clauses : list Clause.t) :
  Forall (fun c => ~ knownLevel c) clauses ->
  Dashboard.sortedClauses clauses = clauses.
Proof.
  unfold Dashboard.sortedClauses.
  induction 1 as [|x l Hx _ IH]; cbn [ArraySort.sort]; [reflexivity|].
  rewrite IH. apply insert_unknown. exact Hx.
Qed.

(** An instance of X4: two clauses whose levels are written in lower
    case. *)
Lemma sortedClauses_unknown_levels_witness :
  Dashboard.sortedClauses
    [sampleClause "Renewal Term" "medium" true; sampleClause "Cap On Liability" "high" true]
  = [sampleClause "Renewal Term" "medium" true; sampleClause "Cap On Liability" "high" true].
Proof.
  apply sortedClauses_unknown_levels.
  repeat constructor; unfold knownLevel, riskLevels; cbn;
    intros [H|[H|[H|[H|[]]]]]; discriminate.
Defined.

(** ** Filters *)

Lemma filterItem_set_hidden (g : string) (i : ClauseItem.t) :
  exists h, Dashboard.filterItem g i = ClauseItem.set_hidden h i.
Proof.
  unfold Dashboard.filterItem.
  repeat match goal with
         | |- context [if ?b then _ else _] => destruct b; [eexists; reflexivity|]
         end.
  exists (ClauseItem.hidden i). destruct i; reflexivity.
Qed.

Lemma filterItem_last_wins (f g : string) (i : ClauseItem.t) :
  In f filterTags ->
  Dashboard.filterItem f (Dashboard.filterItem g i) = Dashboard.filterItem f i.
Proof.
  intros Hf. destruct (filterItem_set_hidden g i) as [h ->].
  unfold filterTags in Hf. cbn [In] in Hf.
  destruct Hf as [<-|[<-|[<-|[<-|[<-|[]]]]]]; reflexivity.
Qed.

Lemma filterItem_unknown_tag (f : string) (i : ClauseItem.t) :
  ~ In f filterTags -> Dashboard.filterItem f i = i.
Proof.
  unfold filterTags. cbn [In]. intros H. unfold Dashboard.filterItem.
  destruct (String.eqb_spec f "all"); [subst; tauto|].
  destruct (String.eqb_spec f "high"); [subst; tauto|].
  destruct (String.eqb_spec f "medium"); [subst; tauto|].
  destruct (String.eqb_spec f "low"); [subst; tauto|].
  destruct (String.eqb_spec f "missing"); [subst; tauto|].
  reflexivity.
Qed.

Lemma state_eta (s : State.t) :
  State.Build (State.app s) (State.doc s) (State.isProcessing s)
    (State.factsInterval s) (State.trace s) = s.
Proof. destruct s; reflexivity. Qed.

(** X5.  Of two filters applied in a row the second one decides alone:
    no clause stays hidden because of an earlier filter, and [all] shows
    every clause again.  A tag that is none of the five changes nothing on
    the page. *)
Theorem filterClauses_last_wins (f g : string) (s : State.t) :
  (In f filterTags ->
     Dashboard.filterClauses f (Dashboard.filterClauses g s) = Dashboard.filterClauses f s)
  /\ (In f filterTags ->
     forall items, DashboardView.clausesList (State.dashboardView s) = Some items ->
       Dashboard.visibleClauses (Dashboard.filterClauses "all" (Dashboard.filterClauses f s))
       = map ClauseItem.clause items)
  /\ (~ In f filterTags -> Dashboard.filterClauses f s = s)
  /\ APP_STATE.currentFilter (State.app (Dashboard.onFilterClick f s)) = f.
Proof.
  split; [|split; [|split; [|reflexivity]]].
  - intros Hf. unfold Dashboard.filterClauses, State.set_dashboard, State.set_doc.
    cbn. do 3 f_equal.
    destruct (DashboardView.clausesList _) as [items|]; [|reflexivity]. cbn.
    f_equal. rewrite map_map. apply map_ext. intros i. apply filterItem_last_wins. exact Hf.
  - intros Hf items Hi.
    unfold Dashboard.visibleClauses, Dashboard.filterClauses, State.dashboardView in *.
    cbn. rewrite Hi. cbn. rewrite map_map. clear Hi.
    induction items as [|i items IH]; [reflexivity|]. cbn. f_equal.
    + rewrite (proj1 (filterItem_clause f i)). reflexivity.
    + exact IH.
  - intros Hf. unfold Dashboard.filterClauses, State.set_dashboard, State.set_doc.
    destruct s as [app [page proc [a b c d e f' g' items] chat] ip fi tr]. cbn.
    do 3 f_equal. destruct items as [items|]; [|reflexivity]. cbn. f_equal.
    rewrite <- (map_id items) at 2. apply map_ext. intros i.
    apply filterItem_unknown_tag. exact Hf.
Qed.

(** ** Rendering the dashboard *)

Lemma visible_of_rendered (l : list Clause.t) :
  map ClauseItem.clause
    (filter (fun i => negb (ClauseItem.hidden i)) (map Dashboard.createClauseElement l))
  = l.
Proof. induction l as [|c l IH]; [reflexivity|]. cbn. rewrite IH. reflexivity. Qed.

(** X6.  [Dashboard.render] replaces what the dashboard showed.  For a
    result whose clauses all have a level of the [order] table, the clause
    list becomes the sorted clauses of the result, each once and all
    visible, whatever was listed or hidden before, and rendering twice is
    rendering once.  For every result, the four counts are those of the
    result as received, whatever its clauses are, and [APP_STATE] is not
    written: the filter recorded there stays what it was. *)
Theorem render_replaces_dashboard (data : Extraction.t) (s : State.t) :
  (Forall knownLevel (Extraction.clauses data) ->
   DashboardView.clausesList (State.dashboardView s) <> None ->
     Dashboard.visibleClauses (Dashboard.render data s)
     = Dashboard.sortedClauses (Extraction.clauses data)
     /\ ranked rank (Dashboard.visibleClauses (Dashboard.render data s)))
  /\ (Forall knownLevel (Extraction.clauses data) ->
      Dashboard.render data (Dashboard.render data s) = Dashboard.render data s)
  /\ counts (Dashboard.render data s)
     = (Extraction.high_risk_count data, Extraction.medium_risk_count data,
        Extraction.low_risk_count data, Extraction.missing_critical_count data)
  /\ State.app (Dashboard.render data s) = State.app s
  /\ State.chatView (Dashboard.render data s) = State.chatView s
  /\ State.trace (Dashboard.render data s) = State.trace s.
Proof.
  destruct s as [app [page proc [a b c d e f g items] chat] ip fi tr].
  unfold Dashboard.render, Dashboard.renderClausesList, Dashboard.renderRiskOverview,
    Dashboard.visibleClauses, counts.
  destruct items as [items|]; cbn.
  - split.
    { intros Hk _. rewrite visible_of_rendered.
      split; [reflexivity|apply sortedClauses_ranked; exact Hk]. }
    split; [intros _; destruct a, b, c; reflexivity|].
    destruct a, b, c; repeat split.
  - split; [intros _ H; congruence|].
    split; [intros _; destruct a, b, c; reflexivity|].
    destruct a, b, c; repeat split.
Qed.

(** ** The step markers *)

Lemma updateSteps_nth (els : list (option StepClass)) (k n : Z) (i : nat) :
  nth_error (App.updateSteps k n els) i
  = match nth_error els i with
    | None => None
    | Some e =>
        Some (if k + Z.of_nat i <=? 5
              then option_map (fun _ => App.stepClass (k + Z.of_nat i) n) e
              else e)
    end.
Proof.
  revert k i. induction els as [|e els IH]; intros k i.
  - destruct i; reflexivity.
  - destruct i as [|i]; cbn [App.updateSteps nth_error].
    + rewrite Z.add_0_r. reflexivity.
    + rewrite IH. replace (k + 1 + Z.of_nat i) with (k + Z.of_nat (S i)) by lia.
      reflexivity.
Qed.

Lemma updateSteps_length (els : list (option StepClass)) (k n : Z) :
  Datatypes.length (App.updateSteps k n els) = Datatypes.length els.
Proof.
  revert k. induction els as [|e els IH]; intros k; cbn; [reflexivity|].
  rewrite IH. reflexivity.
Qed.

Lemma stepClass_cases (i n : Z) :
  (App.stepClass i n = Completed <-> i < n)
  /\ (App.stepClass i n = Active <-> i = n)
  /\ (App.stepClass i n = Plain <-> n < i).
Proof.
  unfold App.stepClass.
  destruct (Z.ltb_spec i n); [repeat split; intros; try discriminate; try lia; reflexivity|].
  destruct (Z.eqb_spec i n); repeat split; intros; try discriminate; try lia; reflexivity.
Qed.

(** X7.  [App.updateProcessingStep] marks the step elements by their
    place: of the first five, each one that the page has is completed when
    its number is below the step, active when it is the step, and neither
    when it is above; so at most one is active, every element before it is
    completed, and step 0 leaves none marked.  Elements the page lacks
    stay absent, and the status reads [Complete] exactly at step 5.  For
    the steps 0 to 5 that [handleFileUpload] passes, the bar, when there
    is one, is set to the percentage of the step, which is 20 times the
    step. *)
Theorem updateProcessingStep_marks (n : Z) (s : State.t) :
  let before := Processing.stepElements (Document.processing (State.doc s)) in
  let after := Processing.stepElements
                 (Document.processing (State.doc (App.updateProcessingStep n s))) in
  Datatypes.length after = Datatypes.length before
  /\ (forall i c, (i < 5)%nat -> nth_error before i = Some (Some c) ->
        nth_error after i = Some (Some (App.stepClass (Z.of_nat i + 1) n)))
  /\ (forall i, nth_error before i = Some None -> nth_error after i = Some None)
  /\ (forall i c, (i < 5)%nat -> nth_error after i = Some (Some c) ->
        (c = Completed <-> Z.of_nat i + 1 < n)
        /\ (c = Active <-> Z.of_nat i + 1 = n)
        /\ (c = Plain <-> n < Z.of_nat i + 1))
  /\ (forall i j, (i < 5)%nat -> (j < 5)%nat ->
        nth_error after i = Some (Some Active) ->
        nth_error after j = Some (Some Active) -> i = j)
  /\ (forall text class,
        Processing.processingStatus
          (Document.processing (State.doc (App.updateProcessingStep n s)))
        = Some (text, class) -> (text = "Complete" <-> n = 5))
  /\ (0 <= n <= 5 ->
      Processing.progressFill
        (Document.processing (State.doc (App.updateProcessingStep n s)))
      = option_map (fun _ => App.percentage n)
          (Processing.progressFill (Document.processing (State.doc s)))
      /\ (App.percentage n == inject_Z (20 * n))%Q).
Proof.
  intros before after.
  assert (Hnth : forall i, nth_error after i
                 = match nth_error before i with
                   | None => None
                   | Some e => Some (if 1 + Z.of_nat i <=? 5
                                     then option_map (fun _ => App.stepClass (1 + Z.of_nat i) n) e
                                     else e)
                   end)
    by (intros i; apply updateSteps_nth).
  assert (Hafter : forall i c, (i < 5)%nat -> nth_error after i = Some (Some c) ->
                     c = App.stepClass (Z.of_nat i + 1) n).
  { intros i c Hi H. rewrite Hnth in H.
    destruct (nth_error before i) as [[c0|]|]; try discriminate.
    - destruct (Z.leb_spec (1 + Z.of_nat i) 5); [|lia]. cbn [option_map] in H.
      replace (Z.of_nat i + 1) with (1 + Z.of_nat i) by lia. congruence.
    - destruct (1 + Z.of_nat i <=? 5); discriminate. }
  split; [apply updateSteps_length|].
  split.
  { intros i c Hi H. rewrite Hnth, H.
    destruct (Z.leb_spec (1 + Z.of_nat i) 5); [|lia]. cbn [option_map].
    replace (1 + Z.of_nat i) with (Z.of_nat i + 1) by lia. reflexivity. }
  split.
  { intros i H. rewrite Hnth, H. destruct (1 + Z.of_nat i <=? 5); reflexivity. }
  split.
  { intros i c Hi H. rewrite (Hafter i c Hi H). apply stepClass_cases. }
  split.
  { intros i j Hi Hj H1 H2.
    pose proof (Hafter i Active Hi H1) as E1. pose proof (Hafter j Active Hj H2) as E2.
    symmetry in E1, E2. apply stepClass_cases in E1, E2. lia. }
  split.
  { intros text class. cbn.
    destruct (Processing.processingStatus _); [|discriminate]. cbn.
    destruct (Z.eqb_spec n 5); intros [= <- <-]; split; intros; try reflexivity;
      try discriminate; congruence. }
  intros Hn. split; [reflexivity|].
  assert (Hc : n = 0 \/ n = 1 \/ n = 2 \/ n = 3 \/ n = 4 \/ n = 5) by lia.
  destruct Hc as [->|[->|[->|[->|[->| ->]]]]]; reflexivity.
Qed.

(** ** The pipeline: where it ends *)



Lemma render_frame (data : Extraction.t) (s : State.t) :
  State.app (Dashboard.render data s) = State.app s
  /\ State.chatView (Dashboard.render data s) = State.chatView s
  /\ Document.page (State.doc (Dashboard.render data s)) = Document.page (State.doc s)
  /\ Document.processing (State.doc (Dashboard.render data s))
     = Document.processing (State.doc s)
  /\ State.isProcessing (Dashboard.render data s) = State.isProcessing s.
Proof.
  unfold Dashboard.render, Dashboard.renderClausesList.
  destruct (DashboardView.clausesList _); repeat split.
Qed.






(** ** The pipeline: failures *)

Lemma exec_settle_failed {A : Type} (env : environment) (fallback : string)
  (r : fetch_result A) (s : State.t) :
  failed r ->
  exists m,
    exec env (API.settle fallback r) s = (s, Failed_with m)
    /\ JS.or_else (Some m) "An error occurred during processing"
       = failureMessage fallback r.
Proof.
  destruct r as [m|d|body]; intros H; [| |destruct H]; eexists; split; reflexivity.
Qed.

(** X9.  When the upload fails, by rejection or by a response that is not
    ok, [handleFileUpload] ends without an exception and without a second
    request: after steps 0 and 1 and the upload request it shows one error
    toast and sets the timer that brings the upload section back after
    3 s.  The toast carries the detail of the response, or [Upload failed]
    when it has none, or the message of the rejection.  [APP_STATE], the
    dashboard and the chat are as they were. *)
Theorem handleFileUpload_upload_fails (file : File.t) (env : environment) (s : State.t) :
  App.validateFile file = None ->
  failed (env _ (FetchUpload file)) ->
  let s' := fst (exec env (App.handleFileUpload file) s) in
  snd (exec env (App.handleFileUpload file) s) = Completed_with tt
  /\ State.trace s'
     = State.trace s
       ++ [ProcessingStep 0 (App.percentage 0);
           ProcessingStep 1 (App.percentage 1);
           Requested (FetchUpload file);
           Toasted "error" (failureMessage "Upload failed" (env _ (FetchUpload file)));
           TimeoutSet 3000 "upload-section"]
  /\ State.app s' = State.app s
  /\ State.dashboardView s' = State.dashboardView s
  /\ State.chatView s' = State.chatView s
  /\ Page.activeSection (Document.page (State.doc s'))
     = Page.activeSection (Document.page (State.doc (App.showSection "processing-section" s))).
Proof.
  intros Hv Hf s'. subst s'. unfold App.handleFileUpload. rewrite Hv.
  unfold App.pipeline, App.pipelineFailed, API.uploadFile, App.delay.
  exec_steps.
  match goal with
  | |- context [exec env (API.settle ?fb ?r) ?st] =>
      destruct (exec_settle_failed env fb r st Hf) as (m & -> & Hm)
  end.
  exec_steps. cbn [fst snd]. rewrite <- Hm.
  split; [reflexivity|]. split; [|repeat split].
  trace_simpl. rewrite <- !app_assoc. reflexivity.
Qed.

(** An instance of X9: the upload end point answers with an error status
    and no detail. *)
Lemma handleFileUpload_upload_fails_witness :
  App.validateFile sampleFile = None
  /\ failed (failingEnv _ (FetchUpload sampleFile))
  /\ fetchesOf (State.trace
                  (fst (exec failingEnv (App.handleFileUpload sampleFile) sampleState)))
     = ["upload"]
  /\ APP_STATE.currentDocId
       (State.app (fst (exec failingEnv (App.handleFileUpload sampleFile) sampleState)))
     = None.
Proof.
  pose proof (handleFileUpload_upload_fails sampleFile failingEnv sampleState eq_refl I) as H.
  cbv zeta in H. destruct H as (_ & Ht & Ha & _).
  split; [reflexivity|]. split; [exact I|]. split.
  - rewrite Ht. reflexivity.
  - rewrite Ha. reflexivity.
Defined.



(** ** No exception leaves a listener *)

Lemma exec_finally {A : Type} (env : environment) (p : prog A) (f : prog unit)
  (s : State.t) :
  exec env (finally p f) s =
  match exec env p s with
  | (s', Completed_with a) =>
      match exec env f s' with
      | (s'', Completed_with _) => (s'', Completed_with a)
      | (s'', Failed_with m) => (s'', Failed_with m)
      end
  | (s', Failed_with m) =>
      match exec env f s' with
      | (s'', Completed_with _) => (s'', Failed_with m)
      | (s'', Failed_with m') => (s'', Failed_with m')
      end
  end.
Proof.
  revert s. induction p as [a|m|k IH|g k IH|R req k IH]; intros s;
    cbn [finally exec]; try apply IH; rewrite exec_bind;
    destruct (exec env f s) as [s' [[]|m']]; reflexivity.
Qed.

Lemma completes_call (f : State.t -> State.t) : completes (call f).
Proof. intros env s. eexists. reflexivity. Qed.

Lemma completes_Ret : completes (Ret tt).
Proof. intros env s. eexists. reflexivity. Qed.

Lemma completes_bind (p q : prog unit) :
  completes p -> completes q -> completes (bind p (fun _ => q)).
Proof.
  intros Hp Hq env s. rewrite exec_bind. destruct (Hp env s) as [s' ->]. apply Hq.
Qed.

Lemma completes_Reads (k : State.t -> prog unit) :
  (forall s, completes (k s)) -> completes (Reads k).
Proof. intros H env s. cbn [exec]. apply H. Qed.

(** Whatever the guarded block does, a handler that completes makes the
    whole [try]-[catch] complete. *)
Lemma completes_try_catch (p : prog unit) (h : string -> prog unit) :
  (forall m, completes (h m)) -> completes (try_catch p h).
Proof.
  intros Hh env s. rewrite exec_try_catch.
  destruct (exec env p s) as [s' [[]|m]]; [eexists; reflexivity|apply Hh].
Qed.

Lemma completes_finally (p f : prog unit) :
  completes p -> completes f -> completes (finally p f).
Proof.
  intros Hp Hf env s. rewrite exec_finally. destruct (Hp env s) as [s' ->].
  destruct (Hf env s') as [s'' ->]. eexists. reflexivity.
Qed.

Ltac completes_tac :=
  repeat first
    [ apply completes_call
    | apply completes_Ret
    | apply completes_bind
    | apply completes_try_catch; intros ?
    | apply completes_finally ].

Lemma completes_handleFileUpload (file : File.t) : completes (App.handleFileUpload file).
Proof.
  unfold App.handleFileUpload. destruct (App.validateFile file); [completes_tac|].
  unfold App.pipelineFailed. completes_tac.
Qed.

Lemma completes_sendMessage : completes Chat.sendMessage.
Proof.
  unfold Chat.sendMessage. apply completes_Reads. intros s.
  destruct (ChatView.chatInput _); [|completes_tac].
  destruct (ChatView.sendBtn _); [|completes_tac].
  cbv zeta. destruct (negb _); [completes_tac|].
  destruct (negb _); [completes_tac|].
  destruct (State.isProcessing s); [completes_tac|].
  do 4 (apply completes_bind; [apply completes_call|]).
  unfold Chat.addTypingIndicator. intros env st. rewrite exec_bind. cbn [exec].
  unfold Chat.exchangeFailed, Chat.release.
  destruct (State.transcript st); cbn [exec call bind];
    (eapply completes_finally; [apply completes_try_catch; intros ?|]; completes_tac).
Qed.

Lemma completes_clearChat : completes Chat.clearChat.
Proof.
  unfold Chat.clearChat. apply completes_Reads. intros s.
  destruct (APP_STATE.currentSessionId _) as [[|c t]|]; completes_tac.
Qed.

Lemma completes_handleExport : completes App.handleExport.
Proof.
  unfold App.handleExport. apply completes_Reads. intros s.
  destruct (APP_STATE.currentDocId _) as [[|c t]|]; completes_tac.
Qed.

Lemma completes_checkBackendHealth : completes App.checkBackendHealth.
Proof.
  intros env s. unfold App.checkBackendHealth, API.healthCheck.
  exec_steps. destruct (env _ FetchHealth) as [m|d|b]; cbn [exec];
    exec_steps; eexists; reflexivity.
Qed.

(** X11.  No listener of the page lets an exception out: whatever the
    server answers to each request, by a response or a rejection, and in
    whatever state the listener starts, the call it makes runs to its end
    and returns.  The same holds for the health check of [App.init]. *)
Theorem listeners_never_throw (env : environment) (s : State.t) :
  (forall a : EventLoop.action,
     snd (exec env (EventLoop.listener a) s) = Completed_with tt)
  /\ snd (exec env App.checkBackendHealth s) = Completed_with tt.
Proof.
  assert (H : forall p, completes p -> snd (exec env p s) = Completed_with tt).
  { intros p Hp. destruct (Hp env s) as [s' ->]. reflexivity. }
  split; [|apply H, completes_checkBackendHealth].
  intros a. apply H. destruct a; cbn [EventLoop.listener]; try apply completes_call.
  - apply completes_handleFileUpload.
  - apply completes_sendMessage.
  - apply completes_Reads. intros s0. destruct (ChatView.chatInput _); [|apply completes_Ret].
    apply completes_bind; [apply completes_call|apply completes_sendMessage].
  - apply completes_clearChat.
  - apply completes_handleExport.
Qed.

(** ** Export and health check *)

(** X12.  [App.handleExport] without a document shows an error toast and
    sends nothing.  With a document it announces the export, requests it
    for that document, and then shows either the success toast or an error
    toast: [Failed to export: ] followed by [Export failed] for a response
    that is not ok, whatever its body, or by the message of the rejection.
    In no case does it change [APP_STATE] or the page. *)
Theorem handleExport_reports (env : environment) (s : State.t) :
  let s' := fst (exec env App.handleExport s) in
  State.app s' = State.app s
  /\ State.doc s' = State.doc s
  /\ (JS.truthy (APP_STATE.currentDocId (State.app s)) = false ->
        State.trace s' = State.trace s ++ [Toasted "error" "No document to export"])
  /\ (forall docId,
        APP_STATE.currentDocId (State.app s) = Some docId -> docId <> "" ->
        State.trace s'
        = State.trace s
          ++ [Toasted "info" "Generating Excel file...";
              Requested (FetchExport docId);
              match env _ (FetchExport docId) with
              | HttpSuccess _ => Toasted "success" "Excel file downloaded successfully"
              | HttpFailure _ => Toasted "error" "Failed to export: Export failed"
              | NetworkFailure m => Toasted "error" ("Failed to export: " ++ m)%string
              end]).
Proof.
  unfold App.handleExport. cbn [exec].
  destruct (APP_STATE.currentDocId (State.app s)) as [[|c t]|] eqn:E.
  - repeat split. intros docId [= <-] H. congruence.
  - unfold API.exportToExcel. exec_steps.
    destruct (env _ (FetchExport (String c t))) as [m|d|b] eqn:Er; cbn [exec];
      exec_steps; cbn [fst];
      (split; [reflexivity|]; split; [reflexivity|]; split; [discriminate|];
       intros docId [= <-] _; rewrite Er; trace_simpl; rewrite <- !app_assoc; reflexivity).
  - repeat split. discriminate.
Qed.

(** X13.  [App.checkBackendHealth] sends the health request and never
    fails: an answer that is an ok response shows nothing, every other
    answer (a response that is not ok, a rejection) shows the toast that
    the back end is not responding.  Nothing else changes. *)
Theorem checkBackendHealth_reports (env : environment) (s : State.t) :
  let s' := fst (exec env App.checkBackendHealth s) in
  snd (exec env App.checkBackendHealth s) = Completed_with tt
  /\ State.app s' = State.app s
  /\ State.doc s' = State.doc s
  /\ State.trace s'
     = State.trace s
       ++ Requested FetchHealth
          :: match env _ FetchHealth with
             | HttpSuccess _ => []
             | _ => [Toasted "error"
                       "Backend server is not responding. Please ensure it is running on port 8000."]
             end.
Proof.
  unfold App.checkBackendHealth, API.healthCheck. exec_steps.
  destruct (env _ FetchHealth) as [m|d|b]; cbn [exec]; exec_steps; cbn [fst snd];
    (do 3 (split; [reflexivity|])); trace_simpl; rewrite <- ?app_assoc; reflexivity.
Qed.

(** ** The transcript *)





Lemma removeFirst_none (is_it : ChatNode -> bool) (l : list ChatNode) :
  filter is_it l = [] -> Chat.removeFirst is_it l = l.
Proof.
  induction l as [|n l IH]; [reflexivity|]. cbn [filter Chat.removeFirst].
  destruct (is_it n); [discriminate|]. intros H. rewrite (IH H). reflexivity.
Qed.










(** ** One exchange of the chat *)





(** ** What holds between two handlers *)

Lemma along_mono {A : Type} (I : State.t -> Prop) (Q Q' : A -> State.t -> Prop)
  (E E' : string -> State.t -> Prop) (p : prog A) (s : State.t) :
  (forall a s', Q a s' -> Q' a s') -> (forall m s', E m s' -> E' m s') ->
  along I Q E p s -> along I Q' E' p s.
Proof.
  intros HQ HE. revert s.
  induction p as [a|m|k IH|g k IH|R req k IH]; intros s; cbn [along]; auto.
  intros [H1 H2]. split; [exact H1|]. intros r s' Hs'. apply IH, H2, Hs'.
Qed.

Lemma along_bind {A B : Type} (I : State.t -> Prop) (Q : B -> State.t -> Prop)
  (E : string -> State.t -> Prop) (p : prog A) (f : A -> prog B) (s : State.t) :
  along I (fun a s' => along I Q E (f a) s') E p s -> along I Q E (bind p f) s.
Proof.
  revert s. induction p as [a|m|k IH|g k IH|R req k IH]; intros s; cbn [along bind]; auto.
  intros [H1 H2]. split; [exact H1|]. intros r s' Hs'. apply IH, H2, Hs'.
Qed.

Lemma along_try_catch {A : Type} (I : State.t -> Prop) (Q : A -> State.t -> Prop)
  (E : string -> State.t -> Prop) (p : prog A) (h : string -> prog A) (s : State.t) :
  along I Q (fun m s' => along I Q E (h m) s') p s -> along I Q E (try_catch p h) s.
Proof.
  revert s. induction p as [a|m|k IH|g k IH|R req k IH]; intros s;
    cbn [along try_catch]; auto.
  intros [H1 H2]. split; [exact H1|]. intros r s' Hs'. apply IH, H2, Hs'.
Qed.

Lemma along_finally {A : Type} (I : State.t -> Prop) (Q : A -> State.t -> Prop)
  (E : string -> State.t -> Prop) (p : prog A) (f : prog unit) (s : State.t) :
  along I (fun a s' => along I (fun _ => Q a) E f s')
    (fun m s' => along I (fun _ => E m) E f s') p s ->
  along I Q E (finally p f) s.
Proof.
  revert s. induction p as [a|m|k IH|g k IH|R req k IH]; intros s;
    cbn [along finally]; auto.
  - intros H. apply along_bind. exact H.
  - intros H. apply along_bind. exact H.
  - intros [H1 H2]. split; [exact H1|]. intros r s' Hs'. apply IH, H2, Hs'.
Qed.

Lemma run_along {A : Type} (I : State.t -> Prop) (Q : A -> State.t -> Prop)
  (E : string -> State.t -> Prop) (p : prog A) (s : State.t) :
  along I Q E p s ->
  match run p s with
  | (s', Returned a) => Q a s'
  | (s', Thrown m) => E m s'
  | (s', Suspended req k) => I s' /\ forall r s'', I s'' -> along I Q E (k r) s''
  end.
Proof.
  revert s. induction p as [a|m|k IH|g k IH|R req k IH]; intros s; cbn [along run];
    try (intros H; exact H); apply IH.
Qed.

Lemma start_keeps (I : State.t -> Prop) (p : prog unit) (sys : EventLoop.system) :
  Forall (task_keeps I) (EventLoop.pending sys) ->
  along I (fun _ => I) (fun _ => I) p (EventLoop.state sys) ->
  I (EventLoop.state (EventLoop.start p sys))
  /\ Forall (task_keeps I) (EventLoop.pending (EventLoop.start p sys)).
Proof.
  intros Hp H. apply run_along in H. unfold EventLoop.start.
  destruct (run p (EventLoop.state sys)) as [s' [a|m|R req k]];
    cbn [EventLoop.state EventLoop.pending]; [split; assumption..|].
  destruct H as [H1 H2]. split; [exact H1|].
  apply Forall_app. split; [exact Hp|]. constructor; [|constructor].
  intros r s'' Hs''. apply H2, Hs''.
Qed.

(** An invariant of the state that every listener and the handler of the
    page load keep holds in every state the page can reach. *)
Lemma reachable_keeps (I : State.t -> Prop) :
  (forall now rnd36 page,
      I (EventLoop.state (EventLoop.loaded now rnd36 page))
      /\ Forall (task_keeps I) (EventLoop.pending (EventLoop.loaded now rnd36 page))) ->
  (forall a, keeps I (EventLoop.listener a)) ->
  forall sys, EventLoop.reachable sys ->
    I (EventLoop.state sys) /\ Forall (task_keeps I) (EventLoop.pending sys).
Proof.
  intros Hload Hlisten sys Hr. induction Hr as [now rnd36 page|sys sys' Hr [Hs Hp] Hstep].
  - apply Hload.
  - destruct Hstep as [a sys|R req k r before after s].
    + apply start_keeps; [exact Hp|]. apply Hlisten, Hs.
    + cbn [EventLoop.state EventLoop.pending] in Hs, Hp.
      apply Forall_app in Hp. destruct Hp as [Hb Ha].
      inversion Ha as [|t l Ht Hl]; subst.
      apply start_keeps; cbn [EventLoop.state EventLoop.pending].
      * apply Forall_app. split; assumption.
      * apply Ht, Hs.
Qed.

(** A state update that leaves the session id, [Chat.isProcessing] and
    the send button alone, and adds only requests the controller may send
    to the history, keeps a state well formed. *)
Lemma well_formed_frame (s s' : State.t) (l : list Event) :
  well_formed s ->
  APP_STATE.currentSessionId (State.app s') = APP_STATE.currentSessionId (State.app s) ->
  State.isProcessing s' = State.isProcessing s ->
  ChatView.sendBtn (State.chatView s') = ChatView.sendBtn (State.chatView s) ->
  State.trace s' = State.trace s ++ l ->
  Forall request_ok l ->
  well_formed s'.
Proof.
  intros (Hsid & Hbtn & Htr) Ha Hp Hb Ht Hl. unfold well_formed.
  rewrite Ha, Hp, Hb, Ht. split; [exact Hsid|]. split; [exact Hbtn|].
  apply Forall_app. split; assumption.
Qed.

Lemma well_formed_show (message type : string) (s : State.t) :
  well_formed s -> well_formed (Toast.show message type s).
Proof.
  intros H. apply (well_formed_frame s _ [Toasted type message] H); try reflexivity.
  constructor; [exact I|constructor].
Qed.

Lemma well_formed_success (message : string) (s : State.t) :
  well_formed s -> well_formed (Toast.success message s).
Proof. apply well_formed_show. Qed.

Lemma well_formed_error (message : string) (s : State.t) :
  well_formed s -> well_formed (Toast.error message s).
Proof. apply well_formed_show. Qed.

Lemma well_formed_info (message : string) (s : State.t) :
  well_formed s -> well_formed (Toast.info message s).
Proof. apply well_formed_show. Qed.

Lemma well_formed_record (e : Event) (s : State.t) :
  request_ok e -> well_formed s -> well_formed (State.record e s).
Proof.
  intros He H. apply (well_formed_frame s _ [e] H); try reflexivity.
  constructor; [exact He|constructor].
Qed.

Lemma well_formed_showSection (sectionId : string) (s : State.t) :
  well_formed s -> well_formed (App.showSection sectionId s).
Proof.
  intros H. apply (well_formed_frame s _ [] H); try reflexivity; [|constructor].
  symmetry. apply app_nil_r.
Qed.

Lemma well_formed_updateProcessingStep (n : Z) (s : State.t) :
  well_formed s -> well_formed (App.updateProcessingStep n s).
Proof.
  intros H.
  apply (well_formed_frame s _ [ProcessingStep n (App.percentage n)] H); try reflexivity.
  constructor; [exact I|constructor].
Qed.

Lemma well_formed_updateProcessingInfo (filename : string) (pages : option Z)
  (s : State.t) :
  well_formed s -> well_formed (App.updateProcessingInfo filename pages s).
Proof.
  intros H. apply (well_formed_frame s _ [] H); try reflexivity; [|constructor].
  symmetry. apply app_nil_r.
Qed.

Lemma well_formed_set_factsInterval (b : bool) (s : State.t) :
  well_formed s -> well_formed (State.set_factsInterval b s).
Proof.
  intros H. apply (well_formed_frame s _ [] H); try reflexivity; [|constructor].
  symmetry. apply app_nil_r.
Qed.

Lemma well_formed_set_currentDocId (v : option string) (s : State.t) :
  well_formed s -> well_formed (App.set_currentDocId v s).
Proof.
  intros H. apply (well_formed_frame s _ [] H); try reflexivity; [|constructor].
  symmetry. apply app_nil_r.
Qed.

Lemma well_formed_set_extractionData (v : option Extraction.t) (s : State.t) :
  well_formed s -> well_formed (App.set_extractionData v s).
Proof.
  intros H. apply (well_formed_frame s _ [] H); try reflexivity; [|constructor].
  symmetry. apply app_nil_r.
Qed.

Lemma well_formed_render (data : Extraction.t) (s : State.t) :
  well_formed s -> well_formed (Dashboard.render data s).
Proof.
  intros H. destruct (render_frame data s) as (Ha & Hc & _ & _ & Hp).
  apply (well_formed_frame s _ [] H).
  - rewrite Ha. reflexivity.
  - exact Hp.
  - rewrite Hc. reflexivity.
  - rewrite trace_render. symmetry. apply app_nil_r.
  - constructor.
Qed.

Lemma well_formed_onFilterClick (filter : string) (s : State.t) :
  well_formed s -> well_formed (Dashboard.onFilterClick filter s).
Proof.
  intros H. apply (well_formed_frame s _ [] H); try reflexivity; [|constructor].
  symmetry. apply app_nil_r.
Qed.

Lemma well_formed_set_chatInput (f : string -> string) (s : State.t) :
  well_formed s -> well_formed (Chat.set_chatInput f s).
Proof.
  intros H. apply (well_formed_frame s _ [] H); try reflexivity; [|constructor].
  symmetry. apply app_nil_r.
Qed.

Lemma well_formed_set_chatMessages (f : list ChatNode -> list ChatNode) (s : State.t) :
  well_formed s -> well_formed (Chat.set_chatMessages f s).
Proof.
  intros H. apply (well_formed_frame s _ [] H); try reflexivity; [|constructor].
  symmetry. apply app_nil_r.
Qed.

Lemma well_formed_addMessage (text sender : string) (sources : list Source.t)
  (s : State.t) :
  well_formed s -> well_formed (Chat.addMessage text sender sources s).
Proof. apply well_formed_set_chatMessages. Qed.

Lemma well_formed_removeTypingIndicator (id : option string) (s : State.t) :
  well_formed s -> well_formed (Chat.removeTypingIndicator id s).
Proof.
  destruct id as [i|]; [apply well_formed_set_chatMessages|intros H; exact H].
Qed.

(** The end of [sendMessage]: with the flag false the button may be in
    either state. *)
Lemma well_formed_release (s : State.t) :
  well_formed s -> well_formed (Chat.set_sendBtn false (State.set_isProcessing false s)).
Proof.
  intros (Hsid & Hbtn & Htr). split; [exact Hsid|]. split; [discriminate|exact Htr].
Qed.

Lemma generateSessionId_truthy (now : Z) (rnd36 : string) :
  JS.truthy (Some (Utils.generateSessionId now rnd36)) = true.
Proof. reflexivity. Qed.

Lemma well_formed_resetApplication (now : Z) (rnd36 : string) (s : State.t) :
  well_formed s -> well_formed (App.resetApplication now rnd36 s).
Proof.
  intros (Hsid & Hbtn & Htr). split; [apply generateSessionId_truthy|].
  split; [exact Hbtn|].
  unfold App.resetApplication. cbv zeta. trace_simpl.
  apply Forall_app. split; [exact Htr|]. constructor; [exact I|constructor].
Qed.

Create HintDb wf discriminated.

#[local] Hint Resolve well_formed_show well_formed_success well_formed_error
  well_formed_info well_formed_showSection well_formed_updateProcessingStep
  well_formed_updateProcessingInfo well_formed_set_factsInterval
  well_formed_set_currentDocId well_formed_set_extractionData well_formed_render
  well_formed_onFilterClick well_formed_set_chatInput well_formed_set_chatMessages
  well_formed_addMessage well_formed_removeTypingIndicator well_formed_release
  well_formed_resetApplication : wf.

Ltac along_step :=
  lazymatch goal with
  | |- along _ _ _ (bind _ _) _ => apply along_bind
  | |- along _ _ _ (try_catch _ _) _ => apply along_try_catch
  | |- along _ _ _ (finally _ _) _ => apply along_finally
  | |- along _ _ _ (call _) _ => cbn [along call]
  | |- along _ _ _ (await _) _ => cbn [along await]; split; [|intros ? ? ?]
  | |- along _ _ _ (Ret _) _ => cbn [along]
  | |- along _ _ _ (Throw _) _ => cbn [along]
  | |- along _ _ _ (Reads _) _ => cbn [along]
  | |- along _ _ _ (API.settle _ ?r) _ => destruct r; cbn [along API.settle]
  end.

Lemma keeps_handleFileUpload (file : File.t) : keeps well_formed (App.handleFileUpload file).
Proof.
  intros s H. unfold App.handleFileUpload. destruct (App.validateFile file) eqn:Ev.
  - cbn [along call]. auto with wf.
  - unfold App.pipeline, App.pipelineFailed, API.uploadFile, API.extractClauses, App.delay,
      FactsManager.startRotation, FactsManager.stopRotation.
    repeat along_step.
    all: try solve [auto 20 with wf].
    all: try (apply well_formed_record; [|solve [auto 20 with wf]]).
    all: first [exact I|exact Ev].
Qed.

Lemma keeps_handleExport : keeps well_formed App.handleExport.
Proof.
  intros s H. unfold App.handleExport. cbn [along].
  destruct (APP_STATE.currentDocId (State.app s)) as [[|c t]|];
    try (cbn [along call]; auto with wf).
  unfold API.exportToExcel. repeat along_step.
  - apply well_formed_record; [discriminate|auto with wf].
  - destruct r as [m|d|body]; cbn [along call]; auto with wf.
Qed.

Lemma keeps_clearChat : keeps well_formed Chat.clearChat.
Proof.
  intros s H. unfold Chat.clearChat. cbn [along].
  destruct (APP_STATE.currentSessionId (State.app s)) as [[|c t]|];
    try (cbn [along]; exact H).
  unfold API.clearChatSession. repeat along_step.
  - apply well_formed_record; [discriminate|exact H].
  - destruct r as [m|d|body]; repeat along_step; auto with wf.
Qed.

Lemma keeps_sendMessage : keeps well_formed Chat.sendMessage.
Proof.
  intros s H. unfold Chat.sendMessage. cbn [along].
  destruct (ChatView.chatInput (State.chatView s)) as [value|] eqn:Ei;
    [|cbn [along]; exact H].
  destruct (ChatView.sendBtn (State.chatView s)) as [disabled|] eqn:Eb;
    [|cbn [along]; exact H].
  cbv zeta.
  destruct (negb (JS.truthy (Some (JS.trim value)))) eqn:Eq;
    [cbn [along call]; auto with wf|].
  destruct (negb (JS.truthy (APP_STATE.currentDocId (State.app s)))) eqn:Ed;
    [cbn [along call]; auto with wf|].
  destruct (State.isProcessing s) eqn:Ep; [cbn [along]; exact H|].
  unfold Chat.addTypingIndicator, Chat.exchange, Chat.exchangeFailed, Chat.release,
    API.sendChatMessage.
  do 9 along_step. cbn [along].
  destruct (State.transcript _) eqn:Et; repeat along_step.
  all: try solve [auto 10 with wf].
  all: destruct H as (Hsid & Hbtn & Htr); (split; [exact Hsid|]); split.
  all: try (intros _; unfold State.chatView in *; cbn; rewrite Eb; reflexivity).
  all: trace_simpl; apply Forall_app; (split; [exact Htr|]); (constructor; [|constructor]).
  all: cbn [request_ok]; (split; [exact Hsid|]); split;
    [apply negb_false_iff in Ed; exact Ed
    |intros Hq; rewrite Hq in Eq; discriminate].
Qed.

Lemma keeps_listener (a : EventLoop.action) : keeps well_formed (EventLoop.listener a).
Proof.
  destruct a as [file|now rnd36|filter|text| |text| | | ]; cbn [EventLoop.listener].
  - apply keeps_handleFileUpload.
  - intros s H. cbn [along call]. auto with wf.
  - intros s H. cbn [along call]. auto with wf.
  - intros s H. cbn [along call]. auto with wf.
  - apply keeps_sendMessage.
  - intros s H. cbn [along].
    destruct (ChatView.chatInput (State.chatView s)); [|exact H].
    apply along_bind. cbn [along call]. apply keeps_sendMessage. auto with wf.
  - apply keeps_clearChat.
  - intros s H. cbn [along call]. auto with wf.
  - apply keeps_handleExport.
Qed.

Lemma loaded_well_formed (now : Z) (rnd36 : string) (page : Document.t) :
  well_formed (EventLoop.state (EventLoop.loaded now rnd36 page))
  /\ Forall (task_keeps well_formed)
       (EventLoop.pending (EventLoop.loaded now rnd36 page)).
Proof.
  split.
  - split; [apply generateSessionId_truthy|]. split; [discriminate|].
    constructor; [exact I|constructor].
  - constructor; [|constructor]. intros r s H.
    destruct r as [m|d|body]; cbn [along bind call]; auto with wf.
Qed.

Lemma reachable_well_formed (sys : EventLoop.system) :
  EventLoop.reachable sys -> well_formed (EventLoop.state sys).
Proof.
  intros H. apply (reachable_keeps well_formed loaded_well_formed keeps_listener sys H).
Qed.

(** X17.  In every state the page can reach, whatever the user did and
    whenever the answers came, the requests sent so far are well formed:
    every file uploaded passed the validation of [handleFileUpload]; every
    chat request carries a session id, a document id and a query, none of
    them empty; every request to delete a session names a session, and
    every export a document. *)
Theorem requests_well_formed (sys : EventLoop.system) :
  EventLoop.reachable sys ->
  let sent := State.trace (EventLoop.state sys) in
  (forall file, In (Requested (FetchUpload file)) sent -> App.validateFile file = None)
  /\ (forall sessionId docId query,
        In (Requested (FetchChat sessionId docId query)) sent ->
        JS.truthy sessionId = true /\ JS.truthy docId = true /\ query <> "")
  /\ (forall sessionId, In (Requested (FetchClearSession sessionId)) sent -> sessionId <> "")
  /\ (forall docId, In (Requested (FetchExport docId)) sent -> docId <> "").
Proof.
  intros H sent. destruct (reachable_well_formed sys H) as (_ & _ & Htr).
  fold sent in Htr. rewrite Forall_forall in Htr.
  split; [intros file Hin; exact (Htr _ Hin)|].
  split; [intros sid doc q Hin; exact (Htr _ Hin)|].
  split; [intros sid Hin; exact (Htr _ Hin)|].
  intros doc Hin; exact (Htr _ Hin).
Qed.

(** An instance of X17: the page after the sample file was picked, with
    the upload outstanding. *)
Lemma requests_well_formed_witness :
  let sys := EventLoop.start (EventLoop.listener (EventLoop.PickFile sampleFile))
               (EventLoop.loaded 1700000000000 "0.4fzyo82mvyr" samplePage) in
  In (Requested (FetchUpload sampleFile)) (State.trace (EventLoop.state sys))
  /\ forall file,
       In (Requested (FetchUpload file)) (State.trace (EventLoop.state sys)) ->
       App.validateFile file = None.
Proof.
  intros sys. split; [do 3 right; left; reflexivity|].
  assert (Hr : EventLoop.reachable sys).
  { apply (EventLoop.reachable_step
             (EventLoop.loaded 1700000000000 "0.4fzyo82mvyr" samplePage)).
    - apply EventLoop.reachable_loaded.
    - apply EventLoop.step_action. }
  exact (proj1 (requests_well_formed sys Hr)).
Defined.

(** X18.  In every state the page can reach a session id is set, from the
    page load on and across [resetApplication]; and while
    [Chat.isProcessing] is true the send button is disabled. *)
Theorem session_always_set (sys : EventLoop.system) :
  EventLoop.reachable sys ->
  JS.truthy (APP_STATE.currentSessionId (State.app (EventLoop.state sys))) = true
  /\ (State.isProcessing (EventLoop.state sys) = true ->
      ChatView.sendBtn (State.chatView (EventLoop.state sys)) = Some true).
Proof.
  intros H. destruct (reachable_well_formed sys H) as (Hsid & Hbtn & _).
  split; assumption.
Qed.

(** An instance of X18: the sample page after a new analysis was asked
    for. *)
Lemma session_always_set_witness :
  JS.truthy
    (APP_STATE.currentSessionId
       (State.app
          (EventLoop.state
             (EventLoop.start
                (EventLoop.listener (EventLoop.NewAnalysis 1700000000500 "0.k2j5h8d0xq"))
                (EventLoop.loaded 1700000000000 "0.4fzyo82mvyr" samplePage)))))
  = true.
Proof.
  refine (proj1 (session_always_set _ _)).
  apply (EventLoop.reachable_step
           (EventLoop.loaded 1700000000000 "0.4fzyo82mvyr" samplePage)).
  - apply EventLoop.reachable_loaded.
  - apply EventLoop.step_action.
Defined.

(** ** Session ids *)

(** X19.  A session id determines the clock reading and the random part
    it was made from: two calls of [Utils.generateSessionId] give the same
    id only when [Date.now()] gave the same number of milliseconds and the
    characters 2 to 10 of the two random texts are the same.  Ids made at
    different clock readings are different. *)
Theorem generateSessionId_distinct (now1 now2 : Z) (rnd1 rnd2 : string) :
  Utils.generateSessionId now1 rnd1 = Utils.generateSessionId now2 rnd2
  <-> now1 = now2 /\ substring 2 9 rnd1 = substring 2 9 rnd2.
Proof.
  unfold Utils.generateSessionId. split.
  - intros H. cbn [String.append] in H.
    repeat (injection H as H).
    apply split_at_underscore in H; try apply string_of_Z_no_underscore.
    destruct H as [Hd Ht]. split; [apply string_of_Z_inj, Hd|exact Ht].
  - intros [Hn Hr]. rewrite Hn, Hr. reflexivity.
Qed.

(** ** The rotation of the facts *)

(** What [along] gives for a run to the end, each request answered at
    once by the environment. *)
Lemma exec_along {A : Type} (I : State.t -> Prop) (Q : A -> State.t -> Prop)
  (E : string -> State.t -> Prop) (env : environment) (p : prog A) (s : State.t) :
  along I Q E p s ->
  match exec env p s with
  | (s', Completed_with a) => Q a s'
  | (s', Failed_with m) => E m s'
  end.
Proof.
  revert s. induction p as [a|m|k IH|g k IH|R req k IH]; intros s; cbn [along exec];
    try (intros H; exact H); try apply IH.
  intros [H1 H2]. apply IH, H2, H1.
Qed.

Lemma factsInterval_render (data : Extraction.t) (s : State.t) :
  State.factsInterval (Dashboard.render data s) = State.factsInterval s.
Proof.
  unfold Dashboard.render, Dashboard.renderClausesList.
  destruct (DashboardView.clausesList _); reflexivity.
Qed.

(** X20.  When no rotation of the facts is running at the call
    ([FactsManager.intervalId] is null), a call of [handleFileUpload] that
    runs to its end without another handler in between leaves none
    running: on a file that passes the validation the rotation is started
    before the upload is sent, and it is stopped again on every way to the
    end, whatever the back end answered; on a file that is refused it is
    never started. *)
Theorem handleFileUpload_stops_rotation (file : File.t) (env : environment)
  (s : State.t) :
  State.factsInterval s = false ->
  (App.validateFile file = None ->
     State.factsInterval (fst (run (App.handleFileUpload file) s)) = true)
  /\ (forall message, App.validateFile file = Some message ->
        State.factsInterval (fst (run (App.handleFileUpload file) s)) = false)
  /\ State.factsInterval (fst (exec env (App.handleFileUpload file) s)) = false.
Proof.
  intros Hs. split; [|split].
  - intros Hv. unfold App.handleFileUpload. rewrite Hv. reflexivity.
  - intros message Hv. unfold App.handleFileUpload. rewrite Hv. exact Hs.
  - assert (Ha : along (fun _ => True)
                   (fun _ s' => State.factsInterval s' = false)
                   (fun _ _ => False) (App.handleFileUpload file) s).
    { unfold App.handleFileUpload.
      destruct (App.validateFile file); [exact Hs|].
      unfold App.pipeline, App.pipelineFailed, API.uploadFile, API.extractClauses,
        App.delay.
      repeat along_step; try exact I; try reflexivity.
      rewrite factsInterval_render. reflexivity. }
    apply (exec_along _ _ _ env) in Ha.
    destruct (exec env (App.handleFileUpload file) s) as [s' [[]|m]]; cbn [fst];
      [exact Ha|destruct Ha].
Qed.

(** An instance of X20: the sample scenario. *)
Lemma handleFileUpload_stops_rotation_witness :
  State.factsInterval (fst (run (App.handleFileUpload sampleFile) sampleState)) = true
  /\ State.factsInterval
       (fst (exec sampleEnv (App.handleFileUpload sampleFile) sampleState))
     = false.
Proof.
  destruct (handleFileUpload_stops_rotation sampleFile sampleEnv sampleState eq_refl)
    as (H1 & _ & H3).
  split; [apply H1; reflexivity|exact H3].
Defined.

(** ** The guard of [clearChat] *)

(** X21.  In every state the page can reach, the guard at the head of
    [clearChat] lets the call through: a session id is set, and the call
    sends the request that deletes this session and waits for the
    answer. *)
Theorem clearChat_always_requests (sys : EventLoop.system) :
  EventLoop.reachable sys ->
  exists sid k,
    APP_STATE.currentSessionId (State.app (EventLoop.state sys)) = Some sid
    /\ sid <> ""
    /\ run Chat.clearChat (EventLoop.state sys)
       = (State.record (Requested (FetchClearSession sid)) (EventLoop.state sys),
          Suspended (FetchClearSession sid) k).
Proof.
  intros H. destruct (reachable_well_formed sys H) as (Hsid & _ & _).
  unfold Chat.clearChat. cbn [run].
  destruct (APP_STATE.currentSessionId (State.app (EventLoop.state sys))) as [[|c t]|];
    try discriminate.
  eexists. eexists. split; [reflexivity|]. split; [discriminate|]. reflexivity.
Qed.

(** An instance of X21: the sample page when its scripts have run. *)
Lemma clearChat_always_requests_witness :
  exists sid k,
    APP_STATE.currentSessionId
      (State.app (EventLoop.state (EventLoop.loaded 1700000000000 "0.4fzyo82mvyr" samplePage)))
    = Some sid
    /\ sid <> ""
    /\ run Chat.clearChat
         (EventLoop.state (EventLoop.loaded 1700000000000 "0.4fzyo82mvyr" samplePage))
       = (State.record (Requested (FetchClearSession sid))
            (EventLoop.state (EventLoop.loaded 1700000000000 "0.4fzyo82mvyr" samplePage)),
          Suspended (FetchClearSession sid) k).
Proof.
  exact (clearChat_always_requests _
           (EventLoop.reachable_loaded 1700000000000 "0.4fzyo82mvyr" samplePage)).
Defined.
